(** * prettypyplot.plot: a shallow embedding of the matplotlib wrappers

    The module [prettypyplot/plot.py] wraps matplotlib's plotting calls and
    adjusts their cosmetic parameters.  This development embeds its
    functions ([imshow], [plot], [savefig], [legend], [_opposite_side],
    [activate_axis], [colorbar], [grid], [_minmax]) over a small model of the
    Python values they handle and of the part of matplotlib's state they
    read and write, and proves what the specification says about them. *)

From Stdlib Require Import ZArith QArith String Ascii List Lia Lqa.
From stdpp Require Import base gmap strings list.

Set Warnings "-register-all".

(** ** Python values and exceptions *)

Module Py.

(** The Python values the wrappers receive and pass on.  Floats are kept as
    exact rationals; [PyAxes a] is a reference to the axes object [a],
    [PyObj n] an opaque object of the wrapped library (a legend, an image,
    a list of lines, ...). *)
Inductive pyval : Type :=
| PyNone
| PyBool (b : bool)
| PyInt (n : Z)
| PyFloat (q : Q)
| PyStr (s : string)
| PyTuple (l : list pyval)
| PyList (l : list pyval)
| PyAxes (a : nat)
| PyObj (n : nat).

(** The exception classes the module raises or lets through. *)
Inductive exn : Type :=
| ValueError
| TypeError
| IndexError
| KeyError
| ZeroDivisionError.

Inductive result (A : Type) : Type :=
| Ok (a : A)
| Raise (e : exn).
Arguments Ok {A} a.
Arguments Raise {A} e.

(** The number a value compares as: [False == 0 == 0.0], [True == 1]. *)
Definition py_num (v : pyval) : option Q :=
  match v with
  | PyBool b => Some (if b then 1%Q else 0%Q)
  | PyInt n => Some (inject_Z n)
  | PyFloat q => Some q
  | _ => None
  end.

(** Python's [==] on these values. *)
Fixpoint py_eq (x y : pyval) : bool :=
  match py_num x, py_num y with
  | Some p, Some q => Qeq_bool p q
  | Some _, None | None, Some _ => false
  | None, None =>
      match x, y with
      | PyNone, PyNone => true
      | PyStr s, PyStr t => String.eqb s t
      | PyTuple l, PyTuple m | PyList l, PyList m =>
          (fix all2 (l m : list pyval) : bool :=
             match l, m with
             | [], [] => true
             | a :: l', b :: m' => py_eq a b && all2 l' m'
             | _, _ => false
             end) l m
      | PyAxes a, PyAxes b => Nat.eqb a b
      | PyObj a, PyObj b => Nat.eqb a b
      | _, _ => false
      end
  end.

(** [hash(x)] succeeds: a list is unhashable, and so is a tuple that holds
    one. *)
Fixpoint hashable (x : pyval) : bool :=
  match x with
  | PyList _ => false
  | PyTuple l =>
      (fix all (l : list pyval) : bool :=
         match l with
         | [] => true
         | a :: l' => hashable a && all l'
         end) l
  | _ => true
  end.

(** [x in {c1, ..., cn}] for a set display: the set hashes [x] first, which
    raises [TypeError] for an unhashable [x]; then some member has to compare
    equal to [x]. *)
Definition py_in (x : pyval) (members : list pyval) : result bool :=
  if hashable x then Ok (existsb (py_eq x) members) else Raise TypeError.

(** Truth value of [if x:]. *)
Definition py_truthy (v : pyval) : bool :=
  match v with
  | PyNone => false
  | PyBool b => b
  | PyInt n => negb (Z.eqb n 0)
  | PyFloat q => negb (Qeq_bool q 0)
  | PyStr s => negb (String.eqb s "")
  | PyTuple l | PyList l => match l with [] => false | _ => true end
  | PyAxes _ | PyObj _ => true
  end.

(** [isinstance(v, mpl.axes.Axes)]. *)
Definition is_axes (v : pyval) : bool :=
  match v with PyAxes _ => true | _ => false end.

(** Keyword arguments: a dictionary from names to values. *)
Abbreviation kwargs := (gmap string pyval).

(** [kw.setdefault(k, v)]. *)
Definition setdefault (k : string) (v : pyval) (kw : kwargs) : kwargs :=
  match kw !! k with
  | Some _ => kw
  | None => <[k := v]> kw
  end.

(** [f(k1=v1, ..., **kw )]: a keyword given both ways is a [TypeError]
    ("got multiple values for keyword argument"). *)
Fixpoint merge_kwargs (fixed : list (string * pyval)) (kw : kwargs) : result kwargs :=
  match fixed with
  | [] => Ok kw
  | (k, v) :: rest =>
      match kw !! k with
      | Some _ => Raise TypeError
      | None =>
          match merge_kwargs rest kw with
          | Ok kw' => Ok (<[k := v]> kw')
          | Raise e => Raise e
          end
      end
  end.

End Py.
Export Py.

(** ** The wrapped library: matplotlib's state as the wrappers see it *)

Module Mpl.

(** One axis of an axes object: where its ticks and its label sit. *)
Record Axis : Type := mkAxis {
  ticks_position : string;
  label_position : string }.

(** An axes object: its two axes, what [get_xlim], [get_ylim], [get_xticks],
    [get_yticks] and [get_position().bounds] report, and the handles and
    labels a legend collects from it. *)
Record Axes : Type := mkAxes {
  xaxis : Axis;
  yaxis : Axis;
  xlim : Q * Q;
  ylim : Q * Q;
  xticks : list Q;
  yticks : list Q;
  bounds : Q * Q * Q * Q;
  legend_entries : list (pyval * pyval) }.

(** What the module hands to the wrapped library.  A [Call] is a wrapped
    primitive applied to its positional and keyword arguments, with the
    object it returned; [TightLayout] and [SaveFig] also record the size of
    the figure at the moment of the call. *)
Inductive event : Type :=
| Call (target : pyval) (meth : string) (args : list pyval) (kw : kwargs)
       (res : pyval)
| TightLayout (size : Q * Q)
| SaveFig (fname : string) (kw : kwargs) (size : Q * Q).

(** The process-wide state of pyplot: the axes objects, the current figure
    (its axes and its size in inches), the current axes, [plt.rcParams], the
    layout engine behind [tight_layout] (the bounds it gives an axes for a
    figure size), and the calls made so far, newest first. *)
Record World : Type := mkWorld {
  axes_store : gmap nat Axes;
  fig_axes : list nat;
  fig_size : Q * Q;
  current_axes : nat;
  rcParams : gmap string Q;
  layout : Q * Q -> nat -> Q * Q * Q * Q;
  next_obj : nat;
  calls : list event }.

Definition with_axes_store (f : gmap nat Axes -> gmap nat Axes) (w : World) : World :=
  mkWorld (f (axes_store w)) (fig_axes w) (fig_size w) (current_axes w)
          (rcParams w) (layout w) (next_obj w) (calls w).

Definition with_fig_axes (l : list nat) (w : World) : World :=
  mkWorld (axes_store w) l (fig_size w) (current_axes w)
          (rcParams w) (layout w) (next_obj w) (calls w).

Definition with_fig_size (s : Q * Q) (w : World) : World :=
  mkWorld (axes_store w) (fig_axes w) s (current_axes w)
          (rcParams w) (layout w) (next_obj w) (calls w).

Definition with_event (e : event) (w : World) : World :=
  mkWorld (axes_store w) (fig_axes w) (fig_size w) (current_axes w)
          (rcParams w) (layout w) (next_obj w) (e :: calls w).

Definition with_next_obj (n : nat) (w : World) : World :=
  mkWorld (axes_store w) (fig_axes w) (fig_size w) (current_axes w)
          (rcParams w) (layout w) n (calls w).

(** *** Computations: a state that survives an exception

    A Python call either returns or raises, and what it has written before
    raising stays written. *)
Definition M (A : Type) : Type := World -> result A * World.

Definition ret {A} (a : A) : M A := fun w => (Ok a, w).

Definition raise {A} (e : exn) : M A := fun w => (Raise e, w).

Definition bind {A B} (m : M A) (k : A -> M B) : M B :=
  fun w =>
    match m w with
    | (Ok a, w') => k a w'
    | (Raise e, w') => (Raise e, w')
    end.

Definition gets {A} (f : World -> A) : M A := fun w => (Ok (f w), w).

Definition modify (f : World -> World) : M unit := fun w => (Ok tt, f w).

(** A pure step that may raise. *)
Definition lift {A} (r : result A) : M A := fun w => (r, w).

Declare Scope py_scope.
Delimit Scope py_scope with py.
Notation "'let*' x ':=' c 'in' k" := (bind c (fun x => k))
  (at level 10, x name, c at level 100, k at level 200) : py_scope.
Notation "'let*' ' pat ':=' c 'in' k" :=
  (bind c (fun x => match x with pat => k end))
  (at level 10, pat pattern, c at level 100, k at level 200) : py_scope.
Notation "c ;; k" := (bind c (fun _ => k))
  (at level 100, k at level 200, right associativity) : py_scope.
Open Scope py_scope.

(** [l[i]]: [IndexError] past the end. *)
Definition index {A} (l : list A) (i : nat) : M A :=
  match l !! i with
  | Some x => ret x
  | None => raise IndexError
  end.

(** *** Axes objects *)

(** A freshly created axes: ticks and labels at the bottom and on the left. *)
Definition new_axes : Axes :=
  mkAxes (mkAxis "bottom" "bottom") (mkAxis "left" "left")
         (0%Q, 1%Q) (0%Q, 1%Q) [] [] (0%Q, 0%Q, 1%Q, 1%Q) [].

#[global] Instance Axes_inhabited : Inhabited Axes := populate new_axes.

Definition set_xaxis (x : Axis) (s : Axes) : Axes :=
  mkAxes x (yaxis s) (xlim s) (ylim s) (xticks s) (yticks s) (bounds s)
         (legend_entries s).

Definition set_yaxis (y : Axis) (s : Axes) : Axes :=
  mkAxes (xaxis s) y (xlim s) (ylim s) (xticks s) (yticks s) (bounds s)
         (legend_entries s).

Definition set_bounds (b : Q * Q * Q * Q) (s : Axes) : Axes :=
  mkAxes (xaxis s) (yaxis s) (xlim s) (ylim s) (xticks s) (yticks s) b
         (legend_entries s).

(** The state of the axes object [a]. *)
Definition axes_of (w : World) (a : nat) : Axes := axes_store w !!! a.

Definition update_axes (a : nat) (f : Axes -> Axes) : M unit :=
  modify (fun w => with_axes_store (fun st => <[a := f (st !!! a)]> st) w).

(** The two axis objects of an axes, [ax.xaxis] and [ax.yaxis]. *)
Inductive axis_name : Type := XAxis | YAxis.

Definition get_axis (n : axis_name) (s : Axes) : Axis :=
  match n with XAxis => xaxis s | YAxis => yaxis s end.

Definition set_axis (n : axis_name) (x : Axis) (s : Axes) : Axes :=
  match n with XAxis => set_xaxis x s | YAxis => set_yaxis x s end.

(** [axis.set_ticks_position(pos)] and [axis.set_label_position(pos)]. *)
Definition set_ticks_position (a : nat) (n : axis_name) (pos : string) : M unit :=
  update_axes a (fun s => set_axis n (mkAxis pos (label_position (get_axis n s))) s).

Definition set_label_position (a : nat) (n : axis_name) (pos : string) : M unit :=
  update_axes a (fun s => set_axis n (mkAxis (ticks_position (get_axis n s)) pos) s).

Definition get_xticks (a : nat) : M (list Q) := gets (fun w => xticks (axes_of w a)).
Definition get_yticks (a : nat) : M (list Q) := gets (fun w => yticks (axes_of w a)).
Definition get_xlim (a : nat) : M (Q * Q) := gets (fun w => xlim (axes_of w a)).
Definition get_ylim (a : nat) : M (Q * Q) := gets (fun w => ylim (axes_of w a)).

(** [ax.get_position().bounds]: [(x0, y0, width, height)]. *)
Definition get_position_bounds (a : nat) : M (Q * Q * Q * Q) :=
  gets (fun w => bounds (axes_of w a)).

(** [plt.rcParams[key]]. *)
Definition rc (key : string) : M Q :=
  fun w =>
    match rcParams w !! key with
    | Some v => (Ok v, w)
    | None => (Raise KeyError, w)
    end.

(** *** Wrapped primitives *)

(** A wrapped primitive whose effect is the library's own: the call is
    recorded and an object not seen before stands for what it returned. *)
Definition mpl_call (target : pyval) (meth : string) (args : list pyval)
    (kw : kwargs) : M pyval :=
  fun w =>
    let r := PyObj (next_obj w) in
    (Ok r, with_event (Call target meth args kw r)
             (with_next_obj (S (next_obj w)) w)).

(** [fig.get_axes()] and [fig.get_size_inches()] of [plt.gcf()]. *)
Definition get_axes : M (list nat) := gets fig_axes.
Definition get_size_inches : M (Q * Q) := gets fig_size.

(** [fig.set_size_inches(size)]. *)
Definition set_size_inches (size : Q * Q) : M unit :=
  modify (with_fig_size size).

(** [fig.tight_layout()]: the layout engine places every axes of the figure
    for the figure's present size. *)
Definition tight_layout : M unit :=
  modify (fun w =>
    with_event (TightLayout (fig_size w))
      (with_axes_store
         (fun st =>
            foldr (fun a st' => <[a := set_bounds (layout w (fig_size w) a) (st !!! a)]> st')
                  st (fig_axes w))
         w)).

(** [plt.savefig(fname, **kwargs )]: the figure is written at its present
    size. *)
Definition plt_savefig (fname : string) (kw : kwargs) : M unit :=
  modify (fun w => with_event (SaveFig fname kw (fig_size w)) w).

(** [mlegend._get_legend_handles_labels(axs)]: the handles and labels of
    the given axes, in order. *)
Definition _get_legend_handles_labels (axs : list pyval) : M (list pyval * list pyval) :=
  gets (fun w =>
    split (flat_map (fun v => match v with
                              | PyAxes a => legend_entries (axes_of w a)
                              | _ => []
                              end) axs)).

(** The four sides an axes divider accepts. *)
Definition sides : list pyval :=
  [PyStr "left"; PyStr "right"; PyStr "bottom"; PyStr "top"].

(** [divider.append_axes(position, size, pad=pad)] of
    [make_axes_locatable(ax)]: a new axes next to [ax]; the divider rejects
    a position that is not a side with [ValueError]. *)
Definition append_axes (ax : nat) (position size pad : pyval) : M nat :=
  if existsb (py_eq position) sides then
    fun w =>
      let c := fresh (dom (axes_store w)) in
      (Ok c, with_event
               (Call (PyAxes ax) "append_axes" [position; size]
                     {[ "pad" := pad ]} (PyAxes c))
               (with_axes_store (fun st => <[c := new_axes]> st) w))
  else raise ValueError.

End Mpl.
Export Mpl.

(** ** Python's [os.path.splitext] (POSIX flavour) *)

Module OsPath.

(** [p.rfind(c)]: the index of the last [c] in [p], or [-1]. *)
Fixpoint rfind_from (c : ascii) (p : string) (i : Z) (found : Z) : Z :=
  match p with
  | EmptyString => found
  | String a p' => rfind_from c p' (i + 1) (if Ascii.eqb a c then i else found)
  end.

Definition rfind (c : ascii) (p : string) : Z := rfind_from c p 0 (-1).

(** [p[i:j]] for [0 <= i]. *)
Definition slice (p : string) (i j : Z) : string :=
  substring (Z.to_nat i) (Z.to_nat (j - i)) p.

(** The loop of [genericpath._splitext] that skips the leading dots of the
    file name: [true] when a character other than a dot sits in
    [p[filenameIndex:dotIndex]]. *)
Fixpoint has_stem (p : string) (filenameIndex : Z) (n : nat) : bool :=
  match n with
  | O => false
  | S n' =>
      if negb (String.eqb (slice p filenameIndex (filenameIndex + 1)) ".")
      then true
      else has_stem p (filenameIndex + 1) n'
  end.

(** [os.path.splitext(p)]: [(root, ext)] with [ext] empty or starting at the
    last dot of the last path component, leading dots not counted. *)
Definition splitext (p : string) : string * string :=
  let sepIndex := rfind "/"%char p in
  let dotIndex := rfind "."%char p in
  if (sepIndex <? dotIndex)%Z
     && has_stem p (sepIndex + 1) (Z.to_nat (dotIndex - (sepIndex + 1)))
  then (slice p 0 dotIndex, slice p dotIndex (Z.of_nat (String.length p)))
  else (p, ""%string).

(** [s[1:]]. *)
Definition tail (s : string) : string :=
  match s with
  | EmptyString => EmptyString
  | String _ s' => s'
  end.

End OsPath.

(** ** The helper module [prettypyplot.tools] *)

Module tools.

(** Modelled from the spec: [tools.gca] is not among the sources; the spec
    has each wrapper "resolve a target drawing surface (explicit argument or
    an implicit current surface)". *)
Definition gca (ax : option nat) : M nat :=
  match ax with
  | Some a => ret a
  | None => gets current_axes
  end.

(** Modelled from the spec: [tools.parse_axes] is not among the sources; it
    is the spec's "axis resolution" helper, which hands back the positional
    arguments together with the resolved drawing surface. *)
Definition parse_axes (args : list pyval) (ax : option nat) : M (list pyval * nat) :=
  let* a := gca ax in
  ret (args, a).

(** Modelled from the spec: [tools.invert_sign] is not among the sources; it
    is the spec's "sign inversion for spacing values": a number is negated,
    a relative size such as ["7%"] gains or loses its leading minus. *)
Definition invert_sign (v : pyval) : pyval :=
  match v with
  | PyInt n => PyInt (- n)
  | PyFloat q => PyFloat (- q)
  | PyStr (String "-"%char s) => PyStr s
  | PyStr s => PyStr ("-" +:+ s)
  | _ => v
  end.

End tools.

(** ** The module [prettypyplot.plot] *)

Module Plot.

(** [for x in l: body(x)]. *)
Fixpoint for_each {A} (l : list A) (body : A -> M unit) : M unit :=
  match l with
  | [] => ret tt
  | x :: l' => body x ;; for_each l' body
  end.

(** An [if] without [else]. *)
Definition when (b : bool) (body : M unit) : M unit :=
  if b then body else ret tt.

(** A wrapped call whose result is dropped. *)
Definition mpl_call_ (target : pyval) (meth : string) (args : list pyval)
    (kw : kwargs) : M unit :=
  mpl_call target meth args kw ;; ret tt.

(** What [imshow], [colorbar] and the like are given as image: an object of
    the library that may carry an [axes] or an [ax] attribute. *)
Record Mappable : Type := mkMappable {
  m_obj : pyval;
  m_axes : option nat;
  m_ax : option nat }.

(** [imshow( *args, ax=None, **kwargs )]. *)
Definition imshow (args : list pyval) (ax : option nat) (kw : kwargs) : M pyval :=
  let* '(args, ax) := tools.parse_axes args ax in
  let kw := match kw !! "zorder" with
            | None => <["zorder" := PyInt 1]> kw
            | Some _ => kw
            end in
  mpl_call (PyAxes ax) "imshow" args kw.

(** [_minmax(lim, rcparam)]: the range of the plotted data, the view limits
    with the margin taken off.  Dividing by a zero [1 + 2 * margin] raises
    [ZeroDivisionError]. *)
Definition _minmax (lim : Q * Q) (rcparam : string) : M (list Q) :=
  let width := (snd lim - fst lim)%Q in
  let* margin := rc rcparam in
  if Qeq_bool (1 + 2 * margin) 0 then raise ZeroDivisionError
  else ret (map (fun idx => (fst lim + (margin + idx) / (1 + 2 * margin) * width)%Q)
                [0%Q; 1%Q]).

(** [_xminmax(ax)] and [_yminmax(ax)]. *)
Definition _xminmax (ax : nat) : M (list Q) :=
  let* lim := get_xlim ax in _minmax lim "axes.xmargin".

Definition _yminmax (ax : nat) : M (list Q) :=
  let* lim := get_ylim ax in _minmax lim "axes.ymargin".

(** [_opposite_side(pos)]. *)
Definition _opposite_side (pos : pyval) : result pyval :=
  if py_eq pos (PyStr "top") then Ok (PyStr "bottom")
  else if py_eq pos (PyStr "bottom") then Ok (PyStr "top")
  else if py_eq pos (PyStr "right") then Ok (PyStr "left")
  else if py_eq pos (PyStr "left") then Ok (PyStr "right")
  else Raise ValueError.

(** The allowed values of [activate_axis]. *)
Definition positions : list pyval :=
  [PyStr "bottom"; PyStr "top"; PyStr "left"; PyStr "right"].

(** What the [raise] of [activate_axis] ends in.  Its message is built with
    the format field [{0:!r}], which hands ['!r'] to the value as a format
    specification: a string or a number rejects it with [ValueError], any
    other object with [TypeError]; the [ValueError] written in the source is
    not reached. *)
Definition invalid_position (pos : pyval) : exn :=
  match pos with
  | PyStr _ | PyBool _ | PyInt _ | PyFloat _ => ValueError
  | _ => TypeError
  end.

(** The body of the loop of [activate_axis]: one position is checked and
    then applied.  A value that passes the check compares equal to one of
    the four strings, so it is a string. *)
Definition activate_position (ax : nat) (pos : pyval) : M unit :=
  let* ok := lift (py_in pos positions) in
  when (negb ok) (raise (invalid_position pos)) ;;
  let* is_x := lift (py_in pos [PyStr "bottom"; PyStr "top"]) in
  let axis := if is_x then XAxis else YAxis in
  match pos with
  | PyStr s =>
      set_ticks_position ax axis s ;;
      set_label_position ax axis s
  | _ => ret tt
  end.

(** [activate_axis(position, ax=None)]: a string stands for the list that
    holds it; a value that cannot be iterated over is a [TypeError]. *)
Definition activate_axis (position : pyval) (ax : option nat) : M pyval :=
  let* ax := tools.gca ax in
  let* position :=
    match position with
    | PyStr _ => ret [position]
    | PyList l | PyTuple l => ret l
    | _ => raise TypeError
    end in
  for_each position (activate_position ax) ;;
  ret PyNone.

(** [colorbar(im, width='7%', pad='0%', position='right', label=None,
    **kwargs )]. *)
Definition colorbar (im : Mappable) (width pad position label : pyval)
    (kw : kwargs) : M pyval :=
  let* horizontal := lift (py_in position [PyStr "top"; PyStr "bottom"]) in
  let orientation := if horizontal then "horizontal" else "vertical" in
  let* ax :=
    match m_axes im with
    | Some a => ret a
    | None =>
        match m_ax im with
        | Some a => ret a
        | None => gets current_axes
        end
    end in
  let* cax := append_axes ax position width pad in
  let* cbar := mpl_call PyNone "plt.colorbar" [m_obj im]
                 (<["cax" := PyAxes cax]> {[ "orientation" := PyStr orientation ]}) in
  when (py_truthy label) (mpl_call_ cbar "set_label" [label] ∅) ;;
  activate_axis position (Some cax) ;;
  let* opposite := lift (_opposite_side position) in
  activate_axis opposite (Some ax) ;;
  let pad_inv := tools.invert_sign pad in
  let width_inv := tools.invert_sign width in
  let* cax_reset := append_axes ax position width_inv pad_inv in
  mpl_call_ (PyAxes cax_reset) "set_visible" [PyBool false] ∅ ;;
  ret cbar.

Section Style.

(** The two flags imported from [prettypyplot.style]. *)
Variables (__STYLE __MODE : string).

(** [plot( *args, ax=None, **kwargs )]. *)
Definition plot (args : list pyval) (ax : option nat) (kw : kwargs) : M pyval :=
  let* '(args, ax) := tools.parse_axes args ax in
  let* axes := mpl_call (PyAxes ax) "plot" args kw in
  when (String.eqb __STYLE "minimal") (
    let* xminmax := _xminmax ax in
    let* xticks := get_xticks ax in
    when (negb (Nat.eqb (length xticks) 0)) (
      let* lo := index xminmax 0 in
      let* hi := index xminmax 1 in
      mpl_call_ (PyAxes ax) "spines['bottom'].set_bounds" [PyFloat lo; PyFloat hi] ∅ ;;
      mpl_call_ (PyAxes ax) "spines['top'].set_bounds" [PyFloat lo; PyFloat hi] ∅) ;;
    let* yminmax := _yminmax ax in
    let* yticks := get_yticks ax in
    when (negb (Nat.eqb (length yticks) 0)) (
      let* lo := index yminmax 0 in
      let* hi := index yminmax 1 in
      mpl_call_ (PyAxes ax) "spines['left'].set_bounds" [PyFloat lo; PyFloat hi] ∅ ;;
      mpl_call_ (PyAxes ax) "spines['right'].set_bounds" [PyFloat lo; PyFloat hi] ∅)) ;;
  ret axes.

(** [axes.locator_params(tight=False, axis=..., nbins=len(ticks) / 1.5)]. *)
Definition locator_params (a : nat) (axis : string) (nticks : nat) : M unit :=
  mpl_call_ (PyAxes a) "locator_params" []
    (<["tight" := PyBool false]>
       (<["axis" := PyStr axis]>
          {[ "nbins" := PyFloat (inject_Z (Z.of_nat nticks) / (3 # 2)) ]})).

(** The name [savefig] writes to: [.pdf] is appended when no [format] is
    asked for and the name has no extension. *)
Definition savefig_fname (fname : string) (kw : kwargs) : string :=
  match kw !! "format" with
  | None =>
      if String.eqb (OsPath.tail (snd (OsPath.splitext fname))) ""
      then fname +:+ ".pdf"
      else fname
  | Some _ => fname
  end.

(** The body of the loop of [savefig] under the style [minimal]: an axis
    with more than four ticks gets fewer. *)
Definition reduce_ticks (axes : nat) : M unit :=
  let* xt := get_xticks axes in
  when (4 <? length xt)%nat (locator_params axes "x" (length xt)) ;;
  let* yt := get_yticks axes in
  when (4 <? length yt)%nat (locator_params axes "y" (length yt)).

(** [savefig(fname, use_canvas_size=True, **kwargs )].  A zero width or
    height of the axes makes the new size infinite, which
    [set_size_inches] rejects with [ValueError]. *)
Definition savefig (fname : string) (use_canvas_size : bool) (kw : kwargs) : M pyval :=
  let* fig_axes := get_axes in
  let* ax := index fig_axes 0 in
  let* figsize := get_size_inches in
  let set_figsize := figsize in
  when (String.eqb __STYLE "minimal") (
    let* all_axes := get_axes in
    for_each all_axes reduce_ticks) ;;
  (if String.eqb __MODE "poster" then
     set_size_inches (3 * fst figsize, 3 * snd figsize)%Q
   else if String.eqb __MODE "beamer" then
     set_size_inches (3 * fst figsize, 3 * snd figsize)%Q
   else ret tt) ;;
  tight_layout ;;
  when use_canvas_size (
    let* '(x0, y0, width, height) := get_position_bounds ax in
    if Qeq_bool width 0 || Qeq_bool height 0 then raise ValueError
    else set_size_inches (fst figsize / width, snd figsize / height)%Q) ;;
  let fname := savefig_fname fname kw in
  plt_savefig fname kw ;;
  set_size_inches set_figsize ;;
  ret PyNone.

(** The values [legend] accepts for [outside]. *)
Definition outside_values : list pyval :=
  [PyBool false; PyStr "top"; PyStr "right"; PyStr "left"; PyStr "bottom"].

(** The anchor, mode and location [legend] falls back on for each side. *)
Definition legend_defaults (outside : pyval) (kw : kwargs) : kwargs :=
  if py_eq outside (PyStr "top") then
    setdefault "loc" (PyStr "lower left")
      (setdefault "mode" (PyStr "expand")
         (setdefault "bbox_to_anchor"
            (PyTuple [PyFloat 0; PyFloat 1; PyFloat 1; PyFloat (1 # 100)]) kw))
  else if py_eq outside (PyStr "bottom") then
    setdefault "loc" (PyStr "upper left")
      (setdefault "mode" (PyStr "expand")
         (setdefault "bbox_to_anchor"
            (PyTuple [PyFloat 0; PyFloat 0; PyFloat 1; PyFloat (1 # 100)]) kw))
  else if py_eq outside (PyStr "right") then
    setdefault "loc" (PyStr "center left")
      (setdefault "bbox_to_anchor" (PyTuple [PyFloat (103 # 100); PyFloat (1 # 2)]) kw)
  else if py_eq outside (PyStr "left") then
    setdefault "loc" (PyStr "center right")
      (setdefault "bbox_to_anchor" (PyTuple [PyFloat (- (3 # 100)); PyFloat (1 # 2)]) kw)
  else kw.

(** [legend( *args, outside=False, ax=None, axs=None, **kwargs )]. *)
Definition legend (args : list pyval) (outside : pyval) (ax : option nat)
    (axs : option (list pyval)) (kw : kwargs) : M pyval :=
  let* allowed := lift (py_in outside outside_values) in
  when (negb allowed) (raise ValueError) ;;
  let* '(args, ax) := tools.parse_axes args ax in
  let* axs :=
    match axs with
    | None => ret [PyAxes ax]
    | Some l => if negb (forallb is_axes l) then raise TypeError else ret l
    end in
  when (py_truthy outside) (
    let* opposite := lift (_opposite_side outside) in
    activate_axis opposite None ;; ret tt) ;;
  let kw := legend_defaults outside kw in
  let* '(handles, labels) := _get_legend_handles_labels axs in
  let* top_or_bottom := lift (py_in outside [PyStr "top"; PyStr "bottom"]) in
  let kw := if top_or_bottom
            then setdefault "ncol" (PyInt (Z.of_nat (length labels))) kw
            else kw in
  let* leg := mpl_call (PyAxes ax) "legend" (PyList handles :: PyList labels :: args) kw in
  (if String.eqb __STYLE "minimal" then
     mpl_call_ leg "get_frame().set_linewidth" [PyFloat 0] ∅
   else if String.eqb __STYLE "default" then
     let* lw := rc "axes.linewidth" in
     mpl_call_ leg "get_frame().set_linewidth" [PyFloat lw] ∅
   else ret tt) ;;
  let* top_or_bottom := lift (py_in outside [PyStr "top"; PyStr "bottom"]) in
  when top_or_bottom (mpl_call_ leg "move the title into the row of entries" [] ∅) ;;
  ret leg.

(** [grid( *args, ax=None, **kwargs )]. *)
Definition grid (args : list pyval) (ax : option nat) (kw : kwargs) : M pyval :=
  let* '(args, ax) := tools.parse_axes args ax in
  if String.eqb __STYLE "default" then
    let* kw_maj := lift (merge_kwargs [("which", PyStr "major"); ("linestyle", PyStr "--")] kw) in
    let* gr_maj := mpl_call (PyAxes ax) "grid" [] kw_maj in
    let* kw_min := lift (merge_kwargs [("which", PyStr "minor"); ("linestyle", PyStr "dotted")] kw) in
    let* gr_min := mpl_call (PyAxes ax) "grid" [] kw_min in
    mpl_call_ (PyAxes ax) "set_axisbelow" [PyBool true] ∅ ;;
    ret (PyTuple [gr_maj; gr_min])
  else ret PyNone.

End Style.

End Plot.

Import Plot.

(** ** The vocabulary of the statements *)

Module Spec.

(** The four side names. *)
Definition side_names : list string := ["top"; "bottom"; "left"; "right"].

(** [f(g(x))] for two calls that may raise. *)
Definition and_then {A B} (r : result A) (f : A -> result B) : result B :=
  match r with
  | Ok a => f a
  | Raise e => Raise e
  end.

(** The axis a side belongs to. *)
Definition axis_of_side (s : string) : axis_name :=
  if String.eqb s "bottom" || String.eqb s "top" then XAxis else YAxis.

(** The axes a call works on: the one given, else the current one. *)
Definition resolve (ax : option nat) (w : World) : nat :=
  match ax with Some a => a | None => current_axes w end.

(** The axes an image belongs to, as [colorbar] finds it. *)
Definition companion (im : Mappable) (w : World) : nat :=
  match m_axes im with
  | Some a => a
  | None => match m_ax im with Some a => a | None => current_axes w end
  end.

(** The world once the ticks and the label of axes [a] sit on side [s]. *)
Definition activated (a : nat) (s : string) (w : World) : World :=
  with_axes_store
    (fun st => <[a := set_axis (axis_of_side s) (mkAxis s s) (st !!! a)]> st) w.

(** The world after a recorded call. *)
Definition logged (e : event) (w : World) : World :=
  with_event e (with_next_obj (S (next_obj w)) w).

(** The world [w] with further calls recorded. *)
Definition with_log (n : nat) (evs : list event) (w : World) : World :=
  mkWorld (axes_store w) (fig_axes w) (fig_size w) (current_axes w)
          (rcParams w) (layout w) n (evs ++ calls w).

Definition is_call (e : event) : Prop :=
  match e with Call _ _ _ _ _ => True | _ => False end.

(** The figure after [tight_layout]. *)
Definition laid_out (w : World) : World :=
  with_event (TightLayout (fig_size w))
    (with_axes_store
       (fun st =>
          foldr (fun a st' => <[a := set_bounds (layout w (fig_size w) a) (st !!! a)]> st')
                st (fig_axes w))
       w).

(** The objects the wrapped primitive [meth] returned, newest first. *)
Definition results_of (meth : string) (l : list event) : list pyval :=
  flat_map (fun e => match e with
                     | Call _ m _ _ r => if String.eqb m meth then [r] else []
                     | _ => []
                     end) l.

(** The figure sizes [tight_layout] ran at, newest first. *)
Definition layout_sizes (l : list event) : list (Q * Q) :=
  flat_map (fun e => match e with TightLayout s => [s] | _ => [] end) l.

(** The files written, newest first: their names, and the figure sizes
    they were written at. *)
Definition saved_names (l : list event) : list string :=
  flat_map (fun e => match e with SaveFig f _ _ => [f] | _ => [] end) l.

Definition saved_sizes (l : list event) : list (Q * Q) :=
  flat_map (fun e => match e with SaveFig _ _ s => [s] | _ => [] end) l.

(** Three times a size. *)
Definition tripled (s : Q * Q) : Q * Q := (3 * fst s, 3 * snd s)%Q.

(** The size the figure is laid out at: three times its size in the modes
    [poster] and [beamer]. *)
Definition layout_size (mode : string) (s : Q * Q) : Q * Q :=
  if String.eqb mode "poster" || String.eqb mode "beamer"
  then tripled s else s.

(** The size the figure is saved at: with [use_canvas_size] the size at
    entry divided by the width and height of the first axes, else the size
    it was laid out at. *)
Definition canvas_size (use_canvas_size : bool) (s laid : Q * Q)
    (b : Q * Q * Q * Q) : Q * Q :=
  if use_canvas_size
  then (fst s / snd (fst b), snd s / snd b)%Q
  else laid.

(** The layout gives the axes a width and a height other than zero. *)
Definition nondegenerate (b : Q * Q * Q * Q) : bool :=
  negb (Qeq_bool (snd (fst b)) 0 || Qeq_bool (snd b) 0).

(** The extension [savefig] looks at. *)
Definition extension (fname : string) : string :=
  OsPath.tail (snd (OsPath.splitext fname)).

(** The two ends [_minmax] computes, as exact numbers. *)
Definition minmax_lo (a b m : Q) : Q := (a + (m + 0) / (1 + 2 * m) * (b - a))%Q.
Definition minmax_hi (a b m : Q) : Q := (a + (m + 1) / (1 + 2 * m) * (b - a))%Q.

(** The values [legend] takes for [outside]: [False] (or a number equal to
    it) and the four sides. *)
Definition allowed_outside (v : pyval) : Prop :=
  (exists q, py_num v = Some q /\ (q == 0)%Q) \/
  v = PyStr "top" \/ v = PyStr "right" \/ v = PyStr "left" \/ v = PyStr "bottom".

(** [m] makes no call of the wrapped primitive [meth], whether it returns
    or raises. *)
Definition quiet (meth : string) {A} (m : M A) : Prop :=
  forall w r w', m w = (r, w') ->
    results_of meth (calls w') = results_of meth (calls w).

(** [m], when it returns, returns [r] and has made no call of [meth]. *)
Definition keeps (meth : string) {A} (r : A) (m : M A) : Prop :=
  forall w r' w', m w = (Ok r', w') ->
    r' = r /\ results_of meth (calls w') = results_of meth (calls w).

(** [m], when it returns, has made one call of the wrapped primitive [meth]
    and returns the object that call returned. *)
Definition yields (meth : string) (m : M pyval) : Prop :=
  forall w r w', m w = (Ok r, w') ->
    results_of meth (calls w') = r :: results_of meth (calls w).

(** Every exception [m] raises satisfies [P]. *)
Definition raises_only (P : exn -> Prop) {A} (m : M A) : Prop :=
  forall w e w', m w = (Raise e, w') -> P e.

(** A world with one axes in its figure, to run the functions in: a figure
    of 4 by 3 inches whose layout gives the axes four fifths of the width
    and three quarters of the height. *)
Definition demo_world : World :=
  mkWorld {[ 0%nat := new_axes ]} [0%nat] (4%Q, 3%Q) 0%nat
          (<["axes.xmargin" := (1 # 20)%Q]>
             (<["axes.ymargin" := (1 # 20)%Q]>
                {[ "axes.linewidth" := (4 # 5)%Q ]}))
          (fun _ _ => (1 # 10, 1 # 10, 4 # 5, 3 # 4)%Q) 0 [].

End Spec.
Import Spec.

(** ** Further vocabulary: the calls themselves, and what stays as it was *)

Module Trace.

(** The calls of the wrapped primitive [meth], newest first: the object it
    was called on, its positional and its keyword arguments. *)
Definition calls_to (meth : string) (l : list event)
    : list (pyval * list pyval * kwargs) :=
  flat_map (fun e => match e with
                     | Call t m a k _ =>
                         if String.eqb m meth then [(t, a, k)] else []
                     | _ => []
                     end) l.

(** The view limits an axes gives the data range [[d0, d1]]: the range
    padded on both sides by the margin [m] times its length. *)
Definition padded (d0 d1 m : Q) : Q * Q :=
  (d0 - m * (d1 - d0), d1 + m * (d1 - d0))%Q.

(** [f] reads the same in the world [m] leaves as in the one it found,
    whether [m] returns or raises. *)
Definition stable {X A} (f : World -> X) (m : M A) : Prop :=
  forall w r w', m w = (r, w') -> f w' = f w.

(** Two worlds that differ at most in where the ticks and the labels of
    the two axes of the axes object [a] sit. *)
Definition same_but_positions (a : nat) (w w' : World) : Prop :=
  (forall b, b <> a -> axes_of w' b = axes_of w b) /\
  xlim (axes_of w' a) = xlim (axes_of w a) /\
  ylim (axes_of w' a) = ylim (axes_of w a) /\
  xticks (axes_of w' a) = xticks (axes_of w a) /\
  yticks (axes_of w' a) = yticks (axes_of w a) /\
  bounds (axes_of w' a) = bounds (axes_of w a) /\
  legend_entries (axes_of w' a) = legend_entries (axes_of w a) /\
  fig_axes w' = fig_axes w /\
  fig_size w' = fig_size w /\
  current_axes w' = current_axes w /\
  rcParams w' = rcParams w /\
  calls w' = calls w.

Definition axis_eqb (n m : axis_name) : bool :=
  match n, m with
  | XAxis, XAxis | YAxis, YAxis => true
  | _, _ => false
  end.

(** The sides of a list that lie on the axis [n]. *)
Definition on_axis (n : axis_name) (l : list string) : list string :=
  List.filter (fun s => axis_eqb (axis_of_side s) n) l.

(** The handles and the labels [legend] collects from a list of axes. *)
Definition collected (w : World) (axs : list pyval) : list pyval * list pyval :=
  split (flat_map (fun v => match v with
                            | PyAxes a => legend_entries (axes_of w a)
                            | _ => []
                            end) axs).

(** The axes [legend] collects from: the given list, else the axes the
    legend is placed in. *)
Definition legend_axes (ax : option nat) (axs : option (list pyval))
    (w : World) : list pyval :=
  match axs with
  | Some l => l
  | None => [PyAxes (resolve ax w)]
  end.

(** The keyword arguments [locator_params] is called with for an axis of
    [n] ticks. *)
Definition locator_kwargs (axis : string) (n : nat) : kwargs :=
  <["tight" := PyBool false]>
    (<["axis" := PyStr axis]>
       {[ "nbins" := PyFloat (inject_Z (Z.of_nat n) / (3 # 2)) ]}).

(** A figure with no axes at all. *)
Definition empty_figure : World :=
  mkWorld ∅ [] (4%Q, 3%Q) 0%nat ∅ (fun _ _ => (0, 0, 1, 1)%Q) 0 [].

(** The world after the step of [legend] that moves the ticks: for a side,
    the current axes shows the opposite side. *)
Definition legend_moved (v : pyval) (w : World) : World :=
  if py_truthy v then
    match _opposite_side v with
    | Ok (PyStr q) => activated (current_axes w) q w
    | _ => w
    end
  else w.

(** The keyword arguments [legend] passes on. *)
Definition legend_kwargs (v : pyval) (nlabels : nat) (kw : kwargs) : kwargs :=
  if existsb (py_eq v) [PyStr "top"; PyStr "bottom"]
  then setdefault "ncol" (PyInt (Z.of_nat nlabels)) (legend_defaults v kw)
  else legend_defaults v kw.

(** What [legend] ends in once its two checks have passed: it returns,
    unless the style is [default] and [plt.rcParams] has no line width. *)
Definition legend_outcome (style : string) (w : World) : result pyval :=
  if String.eqb style "minimal" then Ok (PyObj (next_obj w))
  else if String.eqb style "default" then
    match rcParams w !! "axes.linewidth" with
    | Some _ => Ok (PyObj (next_obj w))
    | None => Raise KeyError
    end
  else Ok (PyObj (next_obj w)).

(** The call that bounds a spine of the axes [a]: none for a direction
    without ticks, else one with the two ends [_minmax] computes from the
    limits and the margin. *)
Definition spine_bounds (a : nat) (ticks : list Q) (lim : Q * Q) (m : Q)
    : list (pyval * list pyval * kwargs) :=
  match ticks with
  | [] => []
  | _ => [(PyAxes a,
           [PyFloat (minmax_lo (fst lim) (snd lim) m);
            PyFloat (minmax_hi (fst lim) (snd lim) m)], ∅)]
  end.

(** The calls of [locator_params] [savefig] makes for one axes under the
    style [minimal], newest first: one for y and one for x, each only if
    that direction has more than four ticks. *)
Definition thinning (w : World) (a : nat) : list (pyval * list pyval * kwargs) :=
  (if (4 <? length (yticks (axes_of w a)))%nat
   then [(PyAxes a, [], locator_kwargs "y" (length (yticks (axes_of w a))))]
   else [])
  ++
  (if (4 <? length (xticks (axes_of w a)))%nat
   then [(PyAxes a, [], locator_kwargs "x" (length (xticks (axes_of w a))))]
   else []).

(** An axes with six ticks along x, none along y, and one legend entry,
    and a world whose figure holds it. *)
Definition ticked_axes : Axes :=
  mkAxes (mkAxis "bottom" "bottom") (mkAxis "left" "left")
         (- (1 # 2), 21 # 2)%Q (0, 1)%Q [0; 2; 4; 6; 8; 10]%Q []
         (0, 0, 1, 1)%Q [(PyObj 100, PyStr "data")].

Definition ticked_world : World :=
  mkWorld {[ 0%nat := ticked_axes ]} [0%nat] (4%Q, 3%Q) 0%nat
          (<["axes.xmargin" := (1 # 20)%Q]>
             (<["axes.ymargin" := (1 # 20)%Q]>
                {[ "axes.linewidth" := (4 # 5)%Q ]}))
          (fun _ _ => (1 # 10, 1 # 10, 4 # 5, 3 # 4)%Q) 0 [].

(** A world with a second axes that is not the current one. *)
Definition two_axes_world : World :=
  mkWorld (<[1%nat := new_axes]> {[ 0%nat := new_axes ]}) [0%nat; 1%nat]
          (4%Q, 3%Q) 0%nat {[ "axes.linewidth" := (4 # 5)%Q ]}
          (fun _ _ => (1 # 10, 1 # 10, 4 # 5, 3 # 4)%Q) 0 [].

End Trace.
Import Trace.

(** ** Running a computation step by step *)

Lemma bind_ok {A B} (m : M A) (k : A -> M B) (w w' : World) (a : A) :
  m w = (Ok a, w') -> bind m k w = k a w'.
Proof. intros H. unfold bind. now rewrite H. Qed.

Lemma bind_raise {A B} (m : M A) (k : A -> M B) (w w' : World) (e : exn) :
  m w = (Raise e, w') -> bind m k w = (Raise e, w').
Proof. intros H. unfold bind. now rewrite H. Qed.

Lemma mpl_call_run (t : pyval) (m : string) (args : list pyval) (kw : kwargs)
    (w : World) :
  mpl_call t m args kw w =
  (Ok (PyObj (next_obj w)), logged (Call t m args kw (PyObj (next_obj w))) w).
Proof. reflexivity. Qed.

Lemma mpl_call__run (t : pyval) (m : string) (args : list pyval) (kw : kwargs)
    (w : World) :
  mpl_call_ t m args kw w =
  (Ok tt, logged (Call t m args kw (PyObj (next_obj w))) w).
Proof. reflexivity. Qed.

Lemma parse_axes_run (args : list pyval) (ax : option nat) (w : World) :
  tools.parse_axes args ax w = (Ok (args, resolve ax w), w).
Proof. destruct ax; reflexivity. Qed.

(** ** Python equality and membership *)

Lemma py_eq_str (x : pyval) (s : string) :
  py_eq x (PyStr s) = true <-> x = PyStr s.
Proof.
  split.
  - destruct x; simpl; try discriminate.
    intros H. apply String.eqb_eq in H. now subst.
  - intros ->. simpl. apply String.eqb_refl.
Qed.

Lemma py_eq_false_iff (v : pyval) :
  py_eq v (PyBool false) = true <-> exists q, py_num v = Some q /\ (q == 0)%Q.
Proof.
  split.
  - intros H.
    destruct v as [ | b | n | q | | | | | ]; simpl in H; try discriminate;
      eexists; (split; [reflexivity | ]); now apply Qeq_bool_iff.
  - intros (q & Hq & H0).
    destruct v as [ | b | n | q' | | | | | ]; simpl in Hq; try discriminate;
      inversion Hq; subst; simpl; now apply Qeq_bool_iff.
Qed.

Lemma py_eq_zero_falsy (x : pyval) :
  py_eq x (PyBool false) = true -> py_truthy x = false.
Proof.
  destruct x as [ | [] | n | q | | | | | ]; simpl; try discriminate; try reflexivity.
  - intros H. apply Qeq_bool_iff in H.
    unfold Qeq in H. simpl in H.
    destruct (Z.eqb_spec n 0); [reflexivity | lia].
  - intros H. now rewrite H.
Qed.

(** ** [_opposite_side] *)

Lemma opposite_side_valid (p : string) :
  In p side_names ->
  exists q, _opposite_side (PyStr p) = Ok (PyStr q) /\ In q side_names.
Proof.
  unfold side_names. simpl.
  intros [<- | [<- | [<- | [<- | []]]]]; eexists;
    (split; [reflexivity | simpl; auto 6]).
Qed.

(** A string that is no side name has no opposite side. *)
Lemma opposite_side_rejects (x : string) :
  ~ In x side_names -> _opposite_side (PyStr x) = Raise ValueError.
Proof.
  intros H. unfold _opposite_side. simpl.
  repeat match goal with
         | |- context [String.eqb x ?s] =>
             destruct (String.eqb_spec x s) as [-> | _];
             [exfalso; apply H; simpl; auto 6 | ]
         end.
  reflexivity.
Qed.

(** C2: on each of the four side names, taking the opposite side twice
    gives the name back: [_opposite_side(_opposite_side(x)) == x]. *)
Theorem opposite_side_involutive (x : string) :
  In x side_names ->
  and_then (_opposite_side (PyStr x)) _opposite_side = Ok (PyStr x).
Proof.
  unfold side_names. simpl.
  intros [<- | [<- | [<- | [<- | []]]]]; reflexivity.
Qed.

Lemma opposite_side_involutive_witness :
  In "left"%string side_names /\
  and_then (_opposite_side (PyStr "left")) _opposite_side = Ok (PyStr "left").
Proof.
  split.
  - simpl. auto.
  - apply (opposite_side_involutive "left"). simpl. auto.
Defined.

(** ** [_minmax] *)

Section Minmax.

Local Open Scope Q_scope.

Lemma minmax_run (a b m : Q) (rcparam : string) (w : World) :
  rcParams w !! rcparam = Some m ->
  0 <= m ->
  _minmax (a, b) rcparam w = (Ok [minmax_lo a b m; minmax_hi a b m], w).
Proof.
  intros Hrc Hm. unfold _minmax, bind, rc. rewrite Hrc. simpl.
  destruct (Qeq_bool (1 + 2 * m) 0) eqn:E.
  - apply Qeq_bool_iff in E. lra.
  - reflexivity.
Qed.

Lemma minmax_lo_eq (a b m : Q) :
  0 <= m -> minmax_lo a b m - a == m * ((b - a) / (1 + 2 * m)).
Proof. intros Hm. unfold minmax_lo. field. lra. Qed.

Lemma minmax_hi_eq (a b m : Q) :
  0 <= m -> b - minmax_hi a b m == m * ((b - a) / (1 + 2 * m)).
Proof. intros Hm. unfold minmax_hi. field. lra. Qed.

Lemma minmax_unit_nonneg (a b m : Q) :
  a <= b -> 0 <= m -> 0 <= (b - a) / (1 + 2 * m).
Proof.
  intros Hab Hm. unfold Qdiv.
  apply Qmult_le_0_compat; [lra | ].
  apply Qinv_le_0_compat. lra.
Qed.

(** C10: for exact numbers [a <= b] and a margin [m >= 0] (the value of the
    rc parameter), [_minmax(lim=(a, b), ...)] returns [[lo, hi]] with
    [a <= lo <= hi <= b], [lo - a == b - hi] and
    [hi - lo == (b - a) / (1 + 2 * m)]. *)
Theorem minmax_range (a b m : Q) (rcparam : string) (w : World) :
  a <= b ->
  0 <= m ->
  rcParams w !! rcparam = Some m ->
  exists lo hi,
    _minmax (a, b) rcparam w = (Ok [lo; hi], w) /\
    a <= lo /\ lo <= hi /\ hi <= b /\
    lo - a == b - hi /\
    hi - lo == (b - a) / (1 + 2 * m).
Proof.
  intros Hab Hm Hrc.
  exists (minmax_lo a b m), (minmax_hi a b m).
  split; [now apply minmax_run | ].
  pose proof (minmax_lo_eq a b m Hm) as Hlo.
  pose proof (minmax_hi_eq a b m Hm) as Hhi.
  pose proof (minmax_unit_nonneg a b m Hab Hm) as Hu.
  assert (Hw : minmax_hi a b m - minmax_lo a b m == (b - a) / (1 + 2 * m)).
  { unfold minmax_hi, minmax_lo. field. lra. }
  assert (Hmu : 0 <= m * ((b - a) / (1 + 2 * m))).
  { apply Qmult_le_0_compat; assumption. }
  repeat split; try lra.
Qed.

End Minmax.

Lemma minmax_range_witness :
  exists lo hi,
    _minmax (0%Q, 10%Q) "axes.xmargin" demo_world = (Ok [lo; hi], demo_world) /\
    (0 <= lo)%Q /\ (lo <= hi)%Q /\ (hi <= 10)%Q /\
    (lo - 0 == 10 - hi)%Q /\
    (hi - lo == (10 - 0) / (1 + 2 * (1 # 20)))%Q.
Proof.
  apply (minmax_range 0%Q 10%Q (1 # 20)%Q "axes.xmargin" demo_world).
  - unfold Qle. simpl. lia.
  - unfold Qle. simpl. lia.
  - reflexivity.
Defined.

(** The margin [-1/2] makes [_minmax] divide by zero. *)
Lemma minmax_zero_division (a b : Q) (rcparam : string) (w : World) :
  rcParams w !! rcparam = Some (- (1 # 2))%Q ->
  _minmax (a, b) rcparam w = (Raise ZeroDivisionError, w).
Proof. intros Hrc. unfold _minmax, bind, rc. now rewrite Hrc. Qed.

(** ** [imshow] *)

(** C9: [imshow] forwards its keyword arguments to the wrapped [imshow]
    with [zorder] set to [1] when the caller gave none (the other keywords
    as given), and forwards them unchanged when the caller gave a
    [zorder]. *)
Theorem imshow_zorder_default (args : list pyval) (ax : option nat)
    (kw : kwargs) (w : World) :
  exists (a : nat) (kw' : kwargs) (r : pyval) (w' : World),
    imshow args ax kw w = (Ok r, w') /\
    calls w' = Call (PyAxes a) "imshow" args kw' r :: calls w /\
    (kw !! "zorder" = None ->
       kw' !! "zorder" = Some (PyInt 1) /\
       forall k, k <> "zorder"%string -> kw' !! k = kw !! k) /\
    (forall v, kw !! "zorder" = Some v -> kw' = kw).
Proof.
  unfold imshow. rewrite (bind_ok _ _ _ _ _ (parse_axes_run args ax w)).
  cbv beta iota. rewrite mpl_call_run.
  eexists _, _, _, _. split; [reflexivity | ].
  split; [reflexivity | ].
  destruct (kw !! "zorder") as [v0 | ] eqn:E; split;
    try discriminate; try (intros v Hv; reflexivity).
  intros _; split;
    [apply lookup_insert_eq | intros k Hk; now apply lookup_insert_ne].
Qed.

(** ** [activate_axis] *)

Lemma set_axis_twice (n : axis_name) (x y : Axis) (s : Axes) :
  set_axis n x (set_axis n y s) = set_axis n x s.
Proof. destruct n; reflexivity. Qed.

Lemma get_set_axis (n : axis_name) (x : Axis) (s : Axes) :
  get_axis n (set_axis n x s) = x.
Proof. destruct n; reflexivity. Qed.

(** A side name is applied: ticks and label move to it. *)
Lemma activate_position_valid (a : nat) (s : string) (w : World) :
  In s side_names ->
  activate_position a (PyStr s) w = (Ok tt, activated a s w).
Proof.
  intros H. unfold side_names in H. simpl in H.
  destruct H as [<- | [<- | [<- | [<- | []]]]].
  all: unfold activate_position, bind, lift, when; simpl.
  all: unfold set_ticks_position, set_label_position, update_axes, modify,
         activated, with_axes_store; simpl.
  all: now rewrite lookup_total_insert_eq, insert_insert_eq.
Qed.

(** Any other string is rejected, and nothing is written. *)
Lemma activate_position_invalid (a : nat) (s : string) (w : World) :
  ~ In s side_names ->
  activate_position a (PyStr s) w = (Raise ValueError, w).
Proof.
  intros H. unfold activate_position, bind, lift, when, py_in, positions. simpl.
  repeat match goal with
         | |- context [String.eqb s ?t] =>
             destruct (String.eqb_spec s t) as [-> | _];
             [exfalso; apply H; simpl; auto 6 | ]
         end.
  reflexivity.
Qed.

Lemma activate_axis_list (l : list pyval) (ax : option nat) (w : World) :
  activate_axis (PyList l) ax w =
  match for_each l (activate_position (resolve ax w)) w with
  | (Ok _, w') => (Ok PyNone, w')
  | (Raise e, w') => (Raise e, w')
  end.
Proof. destruct ax; reflexivity. Qed.

Lemma activate_axis_str (s : string) (ax : option nat) (w : World) :
  activate_axis (PyStr s) ax w = activate_axis (PyList [PyStr s]) ax w.
Proof. destruct ax; reflexivity. Qed.

Lemma for_each_valid (a : nat) (pre : list string) (w : World) :
  Forall (fun s => In s side_names) pre ->
  for_each (map PyStr pre) (activate_position a) w =
  (Ok tt, fold_left (fun w' s => activated a s w') pre w).
Proof.
  intros H. revert w. induction H as [ | s pre Hs _ IH]; intros w.
  - reflexivity.
  - simpl. unfold bind. rewrite (activate_position_valid a s w Hs). apply IH.
Qed.

Lemma for_each_stops (a : nat) (pre : list string) (bad : string)
    (rest : list pyval) (w : World) :
  Forall (fun s => In s side_names) pre ->
  ~ In bad side_names ->
  for_each (map PyStr pre ++ PyStr bad :: rest) (activate_position a) w =
  (Raise ValueError, fold_left (fun w' s => activated a s w') pre w).
Proof.
  intros H Hbad. revert w. induction H as [ | s pre Hs _ IH]; intros w.
  - simpl. unfold bind. now rewrite (activate_position_invalid a bad w Hbad).
  - simpl. unfold bind. rewrite (activate_position_valid a s w Hs). apply IH.
Qed.

(** A list with an invalid entry splits at its first invalid entry. *)
Lemma first_invalid (l : list string) :
  Exists (fun s => ~ In s side_names) l ->
  exists pre bad rest,
    l = pre ++ bad :: rest /\
    Forall (fun s => In s side_names) pre /\ ~ In bad side_names.
Proof.
  induction l as [ | s l IH]; intros H.
  - inversion H.
  - destruct (in_dec string_dec s side_names) as [Hs | Hs].
    + inversion H as [? ? Hn | ? ? Hl]; subst; [contradiction | ].
      destruct (IH Hl) as (pre & bad & rest & -> & Hpre & Hbad).
      exists (s :: pre), bad, rest. repeat split; auto.
    + exists [], s, l. repeat split; auto.
Qed.

Lemma activate_axis_valid (s : string) (ax : option nat) (w : World) :
  In s side_names ->
  activate_axis (PyStr s) ax w = (Ok PyNone, activated (resolve ax w) s w).
Proof.
  intros H. rewrite activate_axis_str, activate_axis_list.
  change [PyStr s] with (map PyStr [s]).
  rewrite for_each_valid; [reflexivity | ].
  constructor; [assumption | constructor].
Qed.

(** After a side has been activated the axis of that side shows it. *)
Lemma axis_of_side_activated (a : nat) (s : string) (w : World) :
  get_axis (axis_of_side s) (axes_of (activated a s w) a) = mkAxis s s.
Proof.
  unfold axes_of, activated. simpl.
  rewrite lookup_total_insert_eq. apply get_set_axis.
Qed.




(** An invalid entry at the head of the list leaves the world as it was. *)
Lemma activate_axis_invalid_first (bad : string) (rest : list pyval)
    (ax : option nat) (w : World) :
  ~ In bad side_names ->
  activate_axis (PyList (PyStr bad :: rest)) ax w = (Raise ValueError, w).
Proof.
  intros H. rewrite activate_axis_list.
  pose proof (for_each_stops (resolve ax w) [] bad rest w (List.Forall_nil _) H) as E.
  change (map PyStr [] ++ PyStr bad :: rest) with (PyStr bad :: rest) in E.
  now rewrite E.
Qed.

(** ** [colorbar] *)

Lemma append_axes_run (a : nat) (p : string) (size pad : pyval) (w : World) :
  In p side_names ->
  append_axes a (PyStr p) size pad w =
  (Ok (fresh (dom (axes_store w))),
   with_event (Call (PyAxes a) "append_axes" [PyStr p; size] {[ "pad" := pad ]}
                    (PyAxes (fresh (dom (axes_store w)))))
     (with_axes_store (fun st => <[fresh (dom (axes_store w)) := new_axes]> st) w)).
Proof.
  intros H. unfold side_names in H. simpl in H.
  destruct H as [<- | [<- | [<- | [<- | []]]]]; reflexivity.
Qed.

(** A new axes is never the one just written to. *)
Lemma fresh_ne_inserted (a : nat) (x : Axes) (st : gmap nat Axes) :
  fresh (dom (<[a := x]> st)) <> a.
Proof.
  intros E. apply (is_fresh (dom (<[a := x]> st))).
  rewrite E. apply elem_of_dom. rewrite lookup_insert_eq. eauto.
Qed.



(** A run on the demo world, with the colorbar below the image: the
    colorbar's own axes keeps ticks and label at the bottom, those of the
    image move to the top. *)
Example colorbar_bottom_demo :
  let r := colorbar (mkMappable (PyObj 7) (Some 0%nat) None) (PyStr "7%")
             (PyStr "0%") (PyStr "bottom") PyNone ∅ demo_world in
  fst r = Ok (PyObj 0) /\
  xaxis (axes_of demo_world 0) = mkAxis "bottom" "bottom" /\
  xaxis (axes_of (snd r) 0) = mkAxis "top" "top" /\
  xaxis (axes_of (snd r) 1) = mkAxis "bottom" "bottom".
Proof. vm_compute. repeat split. Qed.

(** ** [savefig] *)

Lemma with_log_nil (w : World) : w = with_log (next_obj w) [] w.
Proof. destruct w; reflexivity. Qed.

Lemma with_log_logged (e : event) (n : nat) (evs : list event) (w : World) :
  logged e (with_log n evs w) = with_log (S n) (e :: evs) w.
Proof. reflexivity. Qed.

Lemma layout_sizes_calls (evs : list event) (l : list event) :
  Forall is_call evs -> layout_sizes (evs ++ l) = layout_sizes l.
Proof.
  induction 1 as [ | e evs He _ IH]; [reflexivity | ].
  destruct e; simpl in *; try contradiction. exact IH.
Qed.

Lemma saved_names_calls (evs : list event) (l : list event) :
  Forall is_call evs -> saved_names (evs ++ l) = saved_names l.
Proof.
  induction 1 as [ | e evs He _ IH]; [reflexivity | ].
  destruct e; simpl in *; try contradiction. exact IH.
Qed.

Lemma saved_sizes_calls (evs : list event) (l : list event) :
  Forall is_call evs -> saved_sizes (evs ++ l) = saved_sizes l.
Proof.
  induction 1 as [ | e evs He _ IH]; [reflexivity | ].
  destruct e; simpl in *; try contradiction. exact IH.
Qed.

Lemma when_locator_params_run (b : bool) (a : nat) (axis : string) (k n : nat)
    (evs : list event) (w : World) :
  Forall is_call evs ->
  exists n' evs',
    when b (locator_params a axis k) (with_log n evs w) = (Ok tt, with_log n' evs' w) /\
    Forall is_call evs'.
Proof.
  intros H. destruct b; simpl.
  - unfold locator_params. rewrite mpl_call__run, with_log_logged.
    eexists _, _. split; [reflexivity | ]. constructor; [exact I | assumption].
  - exists n, evs. split; [reflexivity | assumption].
Qed.

(** Thinning out the ticks only records calls. *)
Lemma reduce_ticks_run (a n : nat) (evs : list event) (w : World) :
  Forall is_call evs ->
  exists n' evs',
    reduce_ticks a (with_log n evs w) = (Ok tt, with_log n' evs' w) /\
    Forall is_call evs'.
Proof.
  intros H. unfold reduce_ticks.
  erewrite bind_ok by reflexivity.
  destruct (when_locator_params_run
              (4 <? length (xticks (axes_of (with_log n evs w) a)))%nat a "x"
              (length (xticks (axes_of (with_log n evs w) a))) n evs w H)
    as (n1 & evs1 & E1 & H1).
  erewrite bind_ok by exact E1.
  erewrite bind_ok by reflexivity.
  apply when_locator_params_run, H1.
Qed.

Lemma reduce_all_run (l : list nat) (n : nat) (evs : list event) (w : World) :
  Forall is_call evs ->
  exists n' evs',
    for_each l reduce_ticks (with_log n evs w) = (Ok tt, with_log n' evs' w) /\
    Forall is_call evs'.
Proof.
  revert n evs. induction l as [ | a l IH]; intros n evs H.
  - exists n, evs. split; [reflexivity | assumption].
  - simpl. destruct (reduce_ticks_run a n evs w H) as (n1 & evs1 & E1 & H1).
    erewrite bind_ok by exact E1. apply IH, H1.
Qed.

(** After [tight_layout] the first axes of the figure has the bounds the
    layout engine gives it for the figure's size. *)
Lemma bounds_laid_out (a : nat) (rest : list nat) (w : World) :
  fig_axes w = a :: rest ->
  bounds (axes_of (laid_out w) a) = layout w (fig_size w) a.
Proof.
  intros H. unfold axes_of, laid_out. simpl. rewrite H. simpl.
  now rewrite lookup_total_insert_eq.
Qed.

(** A figure without axes: [fig.get_axes()[0]] raises before anything is
    done. *)
Lemma savefig_no_axes (style mode fname : string) (ucs : bool) (kw : kwargs)
    (w : World) :
  fig_axes w = [] ->
  savefig style mode fname ucs kw w = (Raise IndexError, w).
Proof.
  intros H. unfold savefig.
  erewrite bind_ok by reflexivity. rewrite H.
  erewrite bind_raise; reflexivity.
Qed.

(** What [savefig] does on a figure with axes.  With [use_canvas_size] and
    a first axes of zero width or height it raises, and the figure keeps
    the size it was laid out at.  Otherwise it returns: the layout ran at
    [layout_size], the file was written under [savefig_fname] at
    [canvas_size], and the figure has the size it came with. *)
Lemma savefig_cases (style mode fname : string) (ucs : bool) (kw : kwargs)
    (w : World) (a : nat) (rest : list nat) :
  fig_axes w = a :: rest ->
  exists w',
    if ucs && negb (nondegenerate (layout w (layout_size mode (fig_size w)) a))
    then
      savefig style mode fname ucs kw w = (Raise ValueError, w') /\
      fig_size w' = layout_size mode (fig_size w)
    else
      savefig style mode fname ucs kw w = (Ok PyNone, w') /\
      fig_size w' = fig_size w /\
      layout_sizes (calls w') =
        layout_size mode (fig_size w) :: layout_sizes (calls w) /\
      saved_names (calls w') = savefig_fname fname kw :: saved_names (calls w) /\
      saved_sizes (calls w') =
        canvas_size ucs (fig_size w) (layout_size mode (fig_size w))
          (layout w (layout_size mode (fig_size w)) a)
        :: saved_sizes (calls w).
Proof.
  intros Hfig. unfold savefig.
  erewrite bind_ok by reflexivity. rewrite Hfig.
  erewrite bind_ok by reflexivity.
  erewrite bind_ok by reflexivity.
  assert (Hloop : exists n evs,
    when (String.eqb style "minimal")
      (let* all_axes := get_axes in for_each all_axes reduce_ticks) w
    = (Ok tt, with_log n evs w) /\ Forall is_call evs).
  { destruct (String.eqb style "minimal"); simpl.
    - erewrite bind_ok by reflexivity.
      destruct (reduce_all_run (fig_axes w) (next_obj w) [] w)
        as (n' & evs' & E & H); [constructor | ].
      rewrite <- with_log_nil in E. eauto.
    - exists (next_obj w), []. split; [ | constructor].
      unfold when, ret. f_equal. apply with_log_nil. }
  destruct Hloop as (n & evs & Eloop & Hevs).
  erewrite bind_ok by exact Eloop.
  set (s1 := layout_size mode (fig_size w)).
  erewrite (bind_ok _ _ _ (with_fig_size s1 (with_log n evs w)) tt).
  2:{ unfold s1, layout_size, tripled.
      destruct (String.eqb mode "poster"); [reflexivity | ].
      destruct (String.eqb mode "beamer"); reflexivity. }
  set (w2 := with_fig_size s1 (with_log n evs w)).
  erewrite (bind_ok _ _ w2 (laid_out w2) tt) by reflexivity.
  assert (Hb : bounds (axes_of (laid_out w2) a) = layout w s1 a).
  { apply (bounds_laid_out a rest w2). exact Hfig. }
  destruct ucs; simpl andb.
  - unfold when.
    destruct (nondegenerate (layout w s1 a)) eqn:Hnd; simpl negb; cbv iota.
    + erewrite (bind_ok _ _ (laid_out w2)
                  (with_fig_size (canvas_size true (fig_size w) s1 (layout w s1 a))
                     (laid_out w2)) tt).
      2:{ erewrite bind_ok by reflexivity. rewrite Hb.
          unfold nondegenerate in Hnd.
          destruct (layout w s1 a) as [[[x0 y0] width] height].
          simpl in Hnd |- *.
          destruct (Qeq_bool width 0 || Qeq_bool height 0);
            [discriminate | reflexivity]. }
      eexists. split; [reflexivity | ]. simpl.
      rewrite layout_sizes_calls, saved_names_calls, saved_sizes_calls
        by assumption.
      repeat split.
    + erewrite (bind_raise _ _ (laid_out w2) (laid_out w2) ValueError).
      2:{ erewrite bind_ok by reflexivity. rewrite Hb.
          unfold nondegenerate in Hnd.
          destruct (layout w s1 a) as [[[x0 y0] width] height].
          simpl in Hnd |- *.
          destruct (Qeq_bool width 0 || Qeq_bool height 0);
            [reflexivity | discriminate]. }
      eexists. split; reflexivity.
  - eexists. split; [reflexivity | ]. simpl.
    rewrite layout_sizes_calls, saved_names_calls, saved_sizes_calls
      by assumption.
    repeat split.
Qed.

(** [savefig] returns on a figure with axes whose layout is not
    degenerate. *)
Lemma savefig_returns (style mode fname : string) (ucs : bool) (kw : kwargs)
    (w : World) (a : nat) (rest : list nat) :
  fig_axes w = a :: rest ->
  (ucs = true ->
   nondegenerate (layout w (layout_size mode (fig_size w)) a) = true) ->
  exists w', savefig style mode fname ucs kw w = (Ok PyNone, w').
Proof.
  intros Hfig Hnd.
  destruct (savefig_cases style mode fname ucs kw w a rest Hfig) as (w' & H).
  destruct ucs; [rewrite (Hnd eq_refl) in H | ]; simpl in H;
    exists w'; apply H.
Qed.

(** When [savefig] returns: what it has done. *)
Lemma savefig_returned (style mode fname : string) (ucs : bool) (kw : kwargs)
    (w w' : World) (r : pyval) :
  savefig style mode fname ucs kw w = (Ok r, w') ->
  exists a rest,
    fig_axes w = a :: rest /\
    r = PyNone /\
    fig_size w' = fig_size w /\
    layout_sizes (calls w') =
      layout_size mode (fig_size w) :: layout_sizes (calls w) /\
    saved_names (calls w') = savefig_fname fname kw :: saved_names (calls w) /\
    saved_sizes (calls w') =
      canvas_size ucs (fig_size w) (layout_size mode (fig_size w))
        (layout w (layout_size mode (fig_size w)) a)
      :: saved_sizes (calls w).
Proof.
  intros H. destruct (fig_axes w) as [ | a rest] eqn:Hfig.
  - rewrite (savefig_no_axes style mode fname ucs kw w Hfig) in H. discriminate.
  - exists a, rest. split; [reflexivity | ].
    destruct (savefig_cases style mode fname ucs kw w a rest Hfig) as (w1 & H1).
    destruct (ucs && negb _).
    + destruct H1 as [H1 _]. rewrite H1 in H. discriminate.
    + destruct H1 as (H1 & H2). rewrite H1 in H. inversion H; subst.
      split; [reflexivity | exact H2].
Qed.

(** C1, as the code has it: when [savefig] returns in the mode [poster] or
    [beamer], the figure had three times its size when [tight_layout] ran,
    and has the size it came with afterwards.  The file is written at
    three times that size only with [use_canvas_size=False]; with
    [use_canvas_size=True] (the default) it is written at the size at
    entry divided by the width and the height the layout gave the first
    axes. *)
Theorem savefig_enlarged_mode (style mode fname : string) (ucs : bool)
    (kw : kwargs) (w w' : World) (r : pyval) :
  mode = "poster"%string \/ mode = "beamer"%string ->
  savefig style mode fname ucs kw w = (Ok r, w') ->
  exists a rest,
    fig_axes w = a :: rest /\
    layout_sizes (calls w') = tripled (fig_size w) :: layout_sizes (calls w) /\
    saved_sizes (calls w') =
      (if ucs
       then (fst (fig_size w) / snd (fst (layout w (tripled (fig_size w)) a)),
             snd (fig_size w) / snd (layout w (tripled (fig_size w)) a))%Q
       else tripled (fig_size w))
      :: saved_sizes (calls w) /\
    fig_size w' = fig_size w.
Proof.
  intros Hmode H.
  destruct (savefig_returned style mode fname ucs kw w w' r H)
    as (a & rest & Hfig & _ & Hsize & Hlay & _ & Hsaved).
  assert (Hl : layout_size mode (fig_size w) = tripled (fig_size w)).
  { unfold layout_size. destruct Hmode as [-> | ->]; reflexivity. }
  rewrite Hl in Hlay, Hsaved.
  exists a, rest. repeat split; assumption.
Qed.

Lemma savefig_enlarged_mode_witness :
  let w' := snd (savefig "minimal" "beamer" "fig" false ∅ demo_world) in
  exists a rest,
    fig_axes demo_world = a :: rest /\
    layout_sizes (calls w') =
      tripled (fig_size demo_world) :: layout_sizes (calls demo_world) /\
    saved_sizes (calls w') =
      tripled (fig_size demo_world) :: saved_sizes (calls demo_world) /\
    fig_size w' = fig_size demo_world.
Proof.
  apply (savefig_enlarged_mode "minimal" "beamer" "fig" false ∅ demo_world
           (snd (savefig "minimal" "beamer" "fig" false ∅ demo_world)) PyNone).
  - right. reflexivity.
  - reflexivity.
Defined.

(** C1, as the claim states it, fails: in the mode [poster], with the
    default [use_canvas_size=True], the figure of 4 by 3 inches is laid out
    at 12 by 9 inches but written at [4 / (4/5)] by [3 / (3/4)] inches,
    which is not three times its size. *)
Lemma savefig_poster_not_saved_tripled :
  let r := savefig "default" "poster" "fig" true ∅ demo_world in
  fst r = Ok PyNone /\
  fig_size demo_world = (4%Q, 3%Q) /\
  layout_sizes (calls (snd r)) = [(3 * 4, 3 * 3)%Q] /\
  saved_sizes (calls (snd r)) = [(4 / (4 # 5), 3 / (3 # 4))%Q] /\
  ~ (4 / (4 # 5) == 3 * 4)%Q.
Proof.
  repeat split; try (vm_compute; reflexivity).
  intros H. vm_compute in H. discriminate H.
Qed.

(** C5, as the code has it: when [savefig] returns, the file has been
    written under [fname + '.pdf'] if no [format] keyword was given and the
    extension of [fname] is empty, and under [fname] itself if [fname] has
    an extension or a [format] keyword was given. *)
Theorem savefig_default_suffix (style mode fname : string) (ucs : bool)
    (kw : kwargs) (w w' : World) (r : pyval) :
  savefig style mode fname ucs kw w = (Ok r, w') ->
  exists name,
    saved_names (calls w') = name :: saved_names (calls w) /\
    (kw !! "format" = None -> extension fname = ""%string ->
     name = fname +:+ ".pdf") /\
    (kw !! "format" = None -> extension fname <> ""%string -> name = fname) /\
    (forall v, kw !! "format" = Some v -> name = fname).
Proof.
  intros H.
  destruct (savefig_returned style mode fname ucs kw w w' r H)
    as (a & rest & _ & _ & _ & _ & Hname & _).
  exists (savefig_fname fname kw). split; [exact Hname | ].
  unfold savefig_fname, extension.
  destruct (kw !! "format") as [v0 | ].
  - split; [discriminate | split; [discriminate | reflexivity]].
  - split; [ | split; [ | discriminate]].
    + intros _ E. rewrite E. reflexivity.
    + intros _ E.
      destruct (String.eqb_spec (OsPath.tail (snd (OsPath.splitext fname))) "");
        [contradiction | reflexivity].
Qed.

Lemma savefig_default_suffix_witness :
  let w' := snd (savefig "default" "default" "plots/fig.v2/curve" true ∅
                   demo_world) in
  exists name,
    saved_names (calls w') = name :: saved_names (calls demo_world) /\
    name = "plots/fig.v2/curve.pdf"%string.
Proof.
  destruct (savefig_default_suffix "default" "default" "plots/fig.v2/curve"
              true ∅ demo_world
              (snd (savefig "default" "default" "plots/fig.v2/curve" true ∅
                      demo_world))
              PyNone eq_refl) as (name & Hn & Hpdf & _ & _).
  exists name. split; [exact Hn | ].
  apply Hpdf; reflexivity.
Defined.

(** C5, as the claim states it, fails: ["fig"] has no extension, and with
    [format='png'] among the keyword arguments the file is written under
    ["fig"], not under ["fig.pdf"]. *)
Lemma savefig_format_keeps_name :
  let r := savefig "default" "default" "fig" true
             {[ "format" := PyStr "png" ]} demo_world in
  fst r = Ok PyNone /\
  extension "fig" = ""%string /\
  saved_names (calls (snd r)) = ["fig"%string].
Proof. vm_compute. repeat split. Qed.

(** The extension is what [os.path.splitext] leaves after the last dot of
    the file name. *)
Example extension_examples :
  extension "fig" = ""%string /\
  extension "fig.png" = "png"%string /\
  extension "plots.v2/fig" = ""%string /\
  extension ".hidden" = ""%string /\
  extension "archive.tar.gz" = "gz"%string /\
  savefig_fname "fig" ∅ = "fig.pdf"%string /\
  savefig_fname "fig.png" ∅ = "fig.png"%string.
Proof. vm_compute. repeat split. Qed.

(** ** Which wrapped calls a computation makes *)

Section Calls.

Variable meth : string.

Lemma quiet_ret {A} (a : A) : quiet meth (ret a).
Proof. intros w r w' H. inversion H. reflexivity. Qed.

Lemma quiet_raise {A} (e : exn) : quiet meth (@raise A e).
Proof. intros w r w' H. inversion H. reflexivity. Qed.

Lemma quiet_lift {A} (x : result A) : quiet meth (lift x).
Proof. intros w r w' H. inversion H. reflexivity. Qed.

Lemma quiet_gets {A} (f : World -> A) : quiet meth (gets f).
Proof. intros w r w' H. inversion H. reflexivity. Qed.

Lemma quiet_modify (f : World -> World) :
  (forall w, results_of meth (calls (f w)) = results_of meth (calls w)) ->
  quiet meth (modify f).
Proof. intros Hf w r w' H. inversion H. now rewrite Hf. Qed.

Lemma quiet_bind {A B} (m : M A) (k : A -> M B) :
  quiet meth m -> (forall a, quiet meth (k a)) -> quiet meth (bind m k).
Proof.
  intros Hm Hk w r w' H. unfold bind in H.
  destruct (m w) as [[a | e] w1] eqn:E.
  - rewrite (Hk a w1 r w' H). exact (Hm w _ w1 E).
  - inversion H; subst. exact (Hm w _ w' E).
Qed.

Lemma quiet_when (b : bool) (m : M unit) : quiet meth m -> quiet meth (when b m).
Proof. intros H. destruct b; [exact H | apply quiet_ret]. Qed.

Lemma quiet_for_each {A} (l : list A) (body : A -> M unit) :
  (forall x, quiet meth (body x)) -> quiet meth (for_each l body).
Proof.
  intros H. induction l as [ | x l IH]; simpl.
  - apply quiet_ret.
  - apply quiet_bind; [apply H | intros _; exact IH].
Qed.

Lemma quiet_rc (key : string) : quiet meth (rc key).
Proof.
  intros w r w' H. unfold rc in H.
  destruct (rcParams w !! key); inversion H; reflexivity.
Qed.

Lemma quiet_index {A} (l : list A) (i : nat) : quiet meth (index l i).
Proof. unfold index. destruct (l !! i); [apply quiet_ret | apply quiet_raise]. Qed.

Lemma quiet_mpl_call (t : pyval) (m : string) (args : list pyval) (kw : kwargs) :
  String.eqb m meth = false -> quiet meth (mpl_call t m args kw).
Proof.
  intros Hm w r w' H. rewrite mpl_call_run in H. inversion H; subst.
  cbn -[String.eqb]. now rewrite Hm.
Qed.

Lemma quiet_mpl_call_ (t : pyval) (m : string) (args : list pyval) (kw : kwargs) :
  String.eqb m meth = false -> quiet meth (mpl_call_ t m args kw).
Proof.
  intros Hm. apply quiet_bind; [now apply quiet_mpl_call | intros; apply quiet_ret].
Qed.

Lemma quiet_update_axes (a : nat) (f : Axes -> Axes) : quiet meth (update_axes a f).
Proof. apply quiet_modify. reflexivity. Qed.

Lemma quiet_gca (ax : option nat) : quiet meth (tools.gca ax).
Proof. destruct ax; [apply quiet_ret | apply quiet_gets]. Qed.

Lemma quiet_parse_axes (args : list pyval) (ax : option nat) :
  quiet meth (tools.parse_axes args ax).
Proof. apply quiet_bind; [apply quiet_gca | intros; apply quiet_ret]. Qed.

Lemma quiet_minmax (lim : Q * Q) (rcparam : string) :
  quiet meth (_minmax lim rcparam).
Proof.
  unfold _minmax. apply quiet_bind; [apply quiet_rc | intros m].
  destruct (Qeq_bool _ _); [apply quiet_raise | apply quiet_ret].
Qed.

Lemma quiet_activate_position (a : nat) (pos : pyval) :
  quiet meth (activate_position a pos).
Proof.
  unfold activate_position.
  apply quiet_bind; [apply quiet_lift | intros ok].
  apply quiet_bind; [apply quiet_when, quiet_raise | intros _].
  apply quiet_bind; [apply quiet_lift | intros is_x].
  destruct pos; try apply quiet_ret.
  apply quiet_bind; [apply quiet_update_axes | intros; apply quiet_update_axes].
Qed.

Lemma quiet_activate_axis (position : pyval) (ax : option nat) :
  quiet meth (activate_axis position ax).
Proof.
  unfold activate_axis.
  apply quiet_bind; [apply quiet_gca | intros a].
  apply quiet_bind.
  { destruct position; first [apply quiet_ret | apply quiet_raise]. }
  intros l. apply quiet_bind; [ | intros; apply quiet_ret].
  apply quiet_for_each. intros pos. apply quiet_activate_position.
Qed.

Lemma quiet_append_axes (ax : nat) (position size pad : pyval) :
  String.eqb "append_axes" meth = false ->
  quiet meth (append_axes ax position size pad).
Proof.
  intros Hm. unfold append_axes.
  destruct (existsb (py_eq position) sides); [ | apply quiet_raise].
  intros w r w' H. inversion H; subst. cbn -[String.eqb]. now rewrite Hm.
Qed.

Lemma keeps_ret {A} (r : A) : keeps meth r (ret r).
Proof. intros w r' w' H. inversion H. split; reflexivity. Qed.

Lemma keeps_bind {A B} (r : B) (m : M A) (k : A -> M B) :
  quiet meth m -> (forall a, keeps meth r (k a)) -> keeps meth r (bind m k).
Proof.
  intros Hm Hk w r' w' H. unfold bind in H.
  destruct (m w) as [[a | e] w1] eqn:E; [ | discriminate].
  destruct (Hk a w1 r' w' H) as [-> Hc]. split; [reflexivity | ].
  rewrite Hc. exact (Hm w _ w1 E).
Qed.

Lemma yields_call (t : pyval) (args : list pyval) (kw : kwargs)
    (k : pyval -> M pyval) :
  (forall r, keeps meth r (k r)) -> yields meth (bind (mpl_call t meth args kw) k).
Proof.
  intros Hk w r w' H. erewrite bind_ok in H by apply mpl_call_run.
  destruct (Hk _ _ _ _ H) as [-> Hc]. rewrite Hc. cbn -[String.eqb].
  now rewrite String.eqb_refl.
Qed.

Lemma yields_bind {A} (m : M A) (k : A -> M pyval) :
  quiet meth m -> (forall a, yields meth (k a)) -> yields meth (bind m k).
Proof.
  intros Hm Hk w r w' H. unfold bind in H.
  destruct (m w) as [[a | e] w1] eqn:E; [ | discriminate].
  rewrite (Hk a w1 r w' H). f_equal. exact (Hm w _ w1 E).
Qed.

End Calls.

Create HintDb calls.
#[global] Hint Resolve quiet_ret quiet_raise quiet_lift quiet_gets quiet_rc
  quiet_index quiet_gca quiet_parse_axes quiet_activate_axis
  quiet_update_axes quiet_minmax quiet_mpl_call quiet_mpl_call_
  quiet_append_axes keeps_ret : calls.

(** Going through a computation bind by bind. *)
Ltac quiet_step :=
  first
    [ solve [auto with calls]
    | apply quiet_when
    | apply quiet_for_each; intro
    | apply quiet_bind; [ | intro]
    | match goal with
      | |- quiet _ (match ?x with _ => _ end) => destruct x
      end ].

Ltac quiet_auto := repeat quiet_step.

Ltac keeps_auto :=
  repeat first
    [ apply keeps_ret
    | apply keeps_bind; [solve [quiet_auto] | intro] ].

Ltac yields_auto :=
  repeat first
    [ apply yields_call; intro; solve [keeps_auto]
    | apply yields_bind; [solve [quiet_auto] | intro]
    | match goal with
      | |- yields _ (match ?x with _ => _ end) => destruct x
      end ].

(** ** What the wrappers return *)

Lemma imshow_yields (args : list pyval) (ax : option nat) (kw : kwargs) :
  yields "imshow" (imshow args ax kw).
Proof.
  unfold imshow.
  apply yields_bind; [quiet_auto | intros [args' a]].
  intros w r w' H. rewrite mpl_call_run in H. inversion H; subst. reflexivity.
Qed.

Lemma plot_yields (style : string) (args : list pyval) (ax : option nat)
    (kw : kwargs) :
  yields "plot" (plot style args ax kw).
Proof.
  unfold plot, _xminmax, _yminmax, get_xlim, get_ylim, get_xticks, get_yticks.
  yields_auto.
Qed.

Lemma legend_yields (style : string) (args : list pyval) (outside : pyval)
    (ax : option nat) (axs : option (list pyval)) (kw : kwargs) :
  yields "legend" (legend style args outside ax axs kw).
Proof. unfold legend, _get_legend_handles_labels. yields_auto. Qed.

Lemma colorbar_yields (im : Mappable) (width pad position label : pyval)
    (kw : kwargs) :
  yields "plt.colorbar" (colorbar im width pad position label kw).
Proof. unfold colorbar. yields_auto. Qed.

(** Under the style [default], [grid] makes the two wrapped calls and
    returns the pair of their results. *)
Lemma grid_default (args : list pyval) (ax : option nat) (kw : kwargs)
    (w w' : World) (r : pyval) :
  grid "default" args ax kw w = (Ok r, w') ->
  exists g1 g2,
    r = PyTuple [g1; g2] /\
    results_of "grid" (calls w') = g2 :: g1 :: results_of "grid" (calls w).
Proof.
  unfold grid. intros H.
  rewrite (bind_ok _ _ _ _ _ (parse_axes_run args ax w)) in H.
  cbv beta iota in H. rewrite String.eqb_refl in H.
  destruct (merge_kwargs _ kw) as [kw1 | e1] eqn:E1 in H; [ | discriminate H].
  erewrite bind_ok in H by reflexivity.
  erewrite bind_ok in H by apply mpl_call_run.
  destruct (merge_kwargs _ kw) as [kw2 | e2] eqn:E2 in H; [ | discriminate H].
  erewrite bind_ok in H by reflexivity.
  erewrite bind_ok in H by apply mpl_call_run.
  erewrite bind_ok in H by apply mpl_call__run.
  inversion H; subst. eexists _, _. split; reflexivity.
Qed.

(** Under any other style [grid] makes no wrapped call and returns
    [None]. *)
Lemma grid_other (style : string) (args : list pyval) (ax : option nat)
    (kw : kwargs) (w : World) :
  style <> "default"%string ->
  grid style args ax kw w = (Ok PyNone, w).
Proof.
  intros H. unfold grid.
  rewrite (bind_ok _ _ _ _ _ (parse_axes_run args ax w)).
  cbv beta iota. destruct (String.eqb_spec style "default");
    [contradiction | reflexivity].
Qed.

(** A keyword the wrapper sets itself cannot be passed to [grid]. *)
Lemma grid_duplicate_keyword (args : list pyval) (ax : option nat)
    (kw : kwargs) (w : World) (v : pyval) :
  kw !! "which" = Some v ->
  grid "default" args ax kw w = (Raise TypeError, w).
Proof.
  intros H. unfold grid.
  rewrite (bind_ok _ _ _ _ _ (parse_axes_run args ax w)).
  cbv beta iota. rewrite String.eqb_refl.
  erewrite bind_raise; [reflexivity | ].
  unfold lift. simpl. now rewrite H.
Qed.




(** ** [legend]: what it rejects *)

Lemma outside_values_allowed (v : pyval) :
  existsb (py_eq v) outside_values = true <-> allowed_outside v.
Proof.
  unfold outside_values, allowed_outside. simpl existsb.
  rewrite !orb_true_iff, py_eq_false_iff, !py_eq_str.
  intuition discriminate.
Qed.

Lemma py_in_outside_values (v : pyval) :
  py_in v outside_values = Ok true <-> hashable v = true /\ allowed_outside v.
Proof.
  unfold py_in. rewrite <- outside_values_allowed.
  destruct (hashable v); split.
  - intros H. inversion H as [H']. rewrite H'. auto.
  - intros [_ ->]. reflexivity.
  - discriminate.
  - intros [H _]. discriminate H.
Qed.

Lemma outside_check_ok (v : pyval) (w : World) :
  hashable v = true -> allowed_outside v ->
  lift (py_in v outside_values) w = (Ok true, w).
Proof.
  intros Hh Ha. unfold lift.
  now rewrite (proj2 (py_in_outside_values v) (conj Hh Ha)).
Qed.

(** An allowed value that counts as true is one of the four sides. *)
Lemma allowed_truthy_side (v : pyval) :
  allowed_outside v -> py_truthy v = true ->
  exists s, v = PyStr s /\ In s side_names.
Proof.
  intros [(q & Hq & H0) | [-> | [-> | [-> | ->]]]] Ht.
  - pose proof (proj2 (py_eq_false_iff v) (ex_intro _ q (conj Hq H0))) as Hf.
    rewrite (py_eq_zero_falsy v Hf) in Ht. discriminate.
  - exists "top"%string. simpl. auto.
  - exists "right"%string. simpl. auto 6.
  - exists "left"%string. simpl. auto 6.
  - exists "bottom"%string. simpl. auto.
Qed.

(** For an allowed [outside] the step of [legend] that moves the axis to
    the opposite side goes through. *)
Lemma legend_activation_ok (v : pyval) (w : World) :
  allowed_outside v ->
  exists w1,
    when (py_truthy v)
      (let* opposite := lift (_opposite_side v) in
       activate_axis opposite None ;; ret tt) w = (Ok tt, w1).
Proof.
  intros Ha. destruct (py_truthy v) eqn:Ht; [ | exists w; reflexivity].
  destruct (allowed_truthy_side v Ha Ht) as (s & -> & Hs).
  destruct (opposite_side_valid s Hs) as (q & Hq & Hqin).
  unfold when. rewrite Hq.
  erewrite bind_ok by reflexivity.
  erewrite bind_ok by (now apply activate_axis_valid).
  eexists. reflexivity.
Qed.

Section RaisesOnly.

Variable P : exn -> Prop.

Lemma ro_ret {A} (a : A) : raises_only P (ret a).
Proof. intros w e w' H. discriminate H. Qed.

Lemma ro_gets {A} (f : World -> A) : raises_only P (gets f).
Proof. intros w e w' H. discriminate H. Qed.

Lemma ro_mpl_call (t : pyval) (m : string) (args : list pyval) (kw : kwargs) :
  raises_only P (mpl_call t m args kw).
Proof. intros w e w' H. discriminate H. Qed.

Lemma ro_mpl_call_ (t : pyval) (m : string) (args : list pyval) (kw : kwargs) :
  raises_only P (mpl_call_ t m args kw).
Proof. intros w e w' H. discriminate H. Qed.

Lemma ro_lift_ok {A} (a : A) : raises_only P (lift (Ok a)).
Proof. intros w e w' H. discriminate H. Qed.

Lemma ro_rc (key : string) : P KeyError -> raises_only P (rc key).
Proof.
  intros HP w e w' H. unfold rc in H.
  destruct (rcParams w !! key); inversion H; subst; exact HP.
Qed.

Lemma ro_bind {A B} (m : M A) (k : A -> M B) :
  raises_only P m -> (forall a, raises_only P (k a)) -> raises_only P (bind m k).
Proof.
  intros Hm Hk w e w' H. unfold bind in H.
  destruct (m w) as [[a | e1] w1] eqn:E.
  - exact (Hk a w1 e w' H).
  - inversion H; subst. exact (Hm w e w' E).
Qed.

Lemma ro_when (b : bool) (m : M unit) :
  raises_only P m -> raises_only P (when b m).
Proof. intros H. destruct b; [exact H | apply ro_ret]. Qed.

End RaisesOnly.

#[global] Hint Resolve ro_ret ro_gets ro_mpl_call ro_mpl_call_ ro_lift_ok
  ro_rc : calls.

Ltac ro_auto :=
  repeat first
    [ solve [auto with calls]
    | apply ro_when
    | apply ro_bind; [ | intro]
    | match goal with
      | |- raises_only _ (match ?x with _ => _ end) => destruct x
      end ].

(** An unhashable [outside] makes the membership test itself raise. *)
Lemma legend_rejects_unhashable (style : string) (args : list pyval)
    (v : pyval) (ax : option nat) (axs : option (list pyval)) (kw : kwargs)
    (w : World) :
  hashable v = false ->
  legend style args v ax axs kw w = (Raise TypeError, w).
Proof.
  intros Hh. unfold legend.
  erewrite bind_raise; [reflexivity | ].
  unfold py_in. now rewrite Hh.
Qed.

Lemma legend_rejects_outside (style : string) (args : list pyval) (v : pyval)
    (ax : option nat) (axs : option (list pyval)) (kw : kwargs) (w : World) :
  hashable v = true ->
  ~ allowed_outside v ->
  legend style args v ax axs kw w = (Raise ValueError, w).
Proof.
  intros Hh Hn. unfold legend.
  erewrite (bind_ok _ _ w w false).
  - reflexivity.
  - unfold py_in, lift. rewrite Hh.
    destruct (existsb (py_eq v) outside_values) eqn:E; [ | reflexivity].
    apply outside_values_allowed in E. contradiction.
Qed.

Lemma legend_rejects_axs (style : string) (args : list pyval) (v : pyval)
    (ax : option nat) (l : list pyval) (kw : kwargs) (w : World) :
  hashable v = true ->
  allowed_outside v ->
  forallb is_axes l = false ->
  legend style args v ax (Some l) kw w = (Raise TypeError, w).
Proof.
  intros Hh Ha Hl. unfold legend.
  erewrite bind_ok by (now apply outside_check_ok).
  erewrite bind_ok by reflexivity.
  rewrite (bind_ok _ _ _ _ _ (parse_axes_run args ax w)).
  cbv beta iota. rewrite Hl. reflexivity.
Qed.

(** What [legend] can end in when [outside] is allowed: the [TypeError] of
    the check on [axs], raised before anything is touched, or a [KeyError]
    of [plt.rcParams]. *)
Lemma legend_allowed_raises (style : string) (args : list pyval) (v : pyval)
    (ax : option nat) (axs : option (list pyval)) (kw : kwargs)
    (w w' : World) (e : exn) :
  hashable v = true ->
  allowed_outside v ->
  legend style args v ax axs kw w = (Raise e, w') ->
  (e = TypeError /\ w' = w /\
   exists l, axs = Some l /\ forallb is_axes l = false) \/
  e = KeyError.
Proof.
  intros Hh Ha H. unfold legend in H.
  erewrite bind_ok in H by (now apply outside_check_ok).
  erewrite bind_ok in H by reflexivity.
  rewrite (bind_ok _ _ _ _ _ (parse_axes_run args ax w)) in H.
  destruct (legend_activation_ok v w Ha) as (w1 & E1).
  assert (Hgo : forall (m : M pyval) (w0 : World),
            raises_only (fun e => e = KeyError) m ->
            m w0 = (Raise e, w') -> e = KeyError).
  { intros m w0 Hm Hr. exact (Hm w0 e w' Hr). }
  cbv beta iota in H.
  destruct axs as [l | ];
    [destruct (forallb is_axes l) eqn:El; simpl negb in H | ].
  2:{ erewrite bind_raise in H by reflexivity. inversion H; subst.
      left. repeat split. exists l. auto. }
  all: erewrite bind_ok in H by reflexivity.
  all: erewrite bind_ok in H by exact E1.
  all: right; revert H; apply Hgo.
  all: unfold py_in, _get_legend_handles_labels; rewrite Hh; ro_auto.
Qed.




(** Runs of the check on [outside]. *)
Example legend_outside_examples :
  fst (legend "minimal" [] (PyBool false) None None ∅ demo_world) = Ok (PyObj 0) /\
  fst (legend "minimal" [] (PyStr "left") None None ∅ demo_world) = Ok (PyObj 0) /\
  fst (legend "minimal" [] (PyInt 0) None None ∅ demo_world) = Ok (PyObj 0) /\
  fst (legend "minimal" [] (PyBool true) None None ∅ demo_world) = Raise ValueError /\
  fst (legend "minimal" [] PyNone None None ∅ demo_world) = Raise ValueError /\
  fst (legend "minimal" [] (PyStr "Top") None None ∅ demo_world) = Raise ValueError.
Proof. vm_compute. repeat split. Qed.

Lemma forallb_is_axes_false (l : list pyval) :
  Exists (fun x => is_axes x = false) l -> forallb is_axes l = false.
Proof.
  induction 1 as [x l Hx | x l _ IH]; simpl.
  - now rewrite Hx.
  - rewrite IH. apply andb_false_r.
Qed.

Lemma forallb_is_axes_true (l : list pyval) :
  Forall (fun x => is_axes x = true) l -> forallb is_axes l = true.
Proof.
  induction 1 as [ | x l Hx _ IH]; simpl; [reflexivity | ].
  now rewrite Hx, IH.
Qed.




(** * Further properties of the module *)

(** ** [_opposite_side], continued *)

(** X1: [_opposite_side] raises [ValueError] for every value that is not
    one of the four side strings: another string (the comparison is case
    sensitive), a number, [None], a list. *)
Theorem opposite_side_rejects_others (v : pyval) :
  ~ In v (map PyStr side_names) ->
  _opposite_side v = Raise ValueError.
Proof.
  intros H. unfold _opposite_side.
  repeat match goal with
         | |- context [py_eq v (PyStr ?s)] =>
             destruct (py_eq v (PyStr s)) eqn:E;
             [apply py_eq_str in E; exfalso; apply H; rewrite E; simpl; auto 6
             | clear E]
         end.
  reflexivity.
Qed.

Lemma opposite_side_rejects_others_witness :
  _opposite_side (PyStr "Top") = Raise ValueError /\
  _opposite_side (PyBool true) = Raise ValueError /\
  _opposite_side (PyList [PyStr "top"]) = Raise ValueError.
Proof.
  split; [ | split].
  - apply (opposite_side_rejects_others (PyStr "Top")).
    simpl. intros [H | [H | [H | [H | []]]]]; discriminate H.
  - apply (opposite_side_rejects_others (PyBool true)).
    simpl. intros [H | [H | [H | [H | []]]]]; discriminate H.
  - apply (opposite_side_rejects_others (PyList [PyStr "top"])).
    simpl. intros [H | [H | [H | [H | []]]]]; discriminate H.
Defined.

(** X2: on each of the four sides [_opposite_side] returns a side, never
    the side it was given, and always one of the same axis: top and bottom
    go to each other, and so do left and right. *)
Theorem opposite_side_same_axis (p : string) :
  In p side_names ->
  exists q,
    _opposite_side (PyStr p) = Ok (PyStr q) /\
    In q side_names /\
    q <> p /\
    axis_of_side q = axis_of_side p.
Proof.
  unfold side_names. simpl.
  intros [<- | [<- | [<- | [<- | []]]]]; eexists;
    (split; [reflexivity | ]);
    (split; [simpl; auto 6 | ]);
    (split; [discriminate | reflexivity]).
Qed.

Lemma opposite_side_same_axis_witness :
  exists q,
    _opposite_side (PyStr "right") = Ok (PyStr q) /\
    In q side_names /\
    q <> "right"%string /\
    axis_of_side q = axis_of_side "right".
Proof.
  apply (opposite_side_same_axis "right"). simpl. auto 6.
Defined.

(** ** [_minmax], continued *)

Section MinmaxMore.

Local Open Scope Q_scope.

(** X3: [_minmax] undoes the margin: given the view limits that pad a data
    range [[d0, d1]] by the margin on both sides, it returns the data range
    itself.  This needs no order between [d0] and [d1]. *)
Theorem minmax_undoes_margin (d0 d1 m : Q) (rcparam : string) (w : World) :
  0 <= m ->
  rcParams w !! rcparam = Some m ->
  exists lo hi,
    _minmax (padded d0 d1 m) rcparam w = (Ok [lo; hi], w) /\
    lo == d0 /\ hi == d1.
Proof.
  intros Hm Hrc. unfold padded.
  exists (minmax_lo (d0 - m * (d1 - d0)) (d1 + m * (d1 - d0)) m),
         (minmax_hi (d0 - m * (d1 - d0)) (d1 + m * (d1 - d0)) m).
  split; [now apply minmax_run | ].
  unfold minmax_lo, minmax_hi. split; field; lra.
Qed.

(** X4: what [_minmax] ends in: [KeyError] when [plt.rcParams] lacks the
    parameter, [ZeroDivisionError] when the margin is [-1/2], and a list of
    two numbers otherwise; the world is left as it was in each case. *)
Theorem minmax_outcomes (lim : Q * Q) (rcparam : string) (w : World) :
  match rcParams w !! rcparam with
  | None => _minmax lim rcparam w = (Raise KeyError, w)
  | Some m =>
      (m == - (1 # 2) -> _minmax lim rcparam w = (Raise ZeroDivisionError, w)) /\
      (~ m == - (1 # 2) ->
       exists lo hi, _minmax lim rcparam w = (Ok [lo; hi], w))
  end.
Proof.
  unfold _minmax, bind, rc.
  destruct (rcParams w !! rcparam) as [m | ]; [ | reflexivity].
  simpl. destruct (Qeq_bool (1 + 2 * m) 0) eqn:E.
  - apply Qeq_bool_iff in E. split; [reflexivity | ].
    intros H. exfalso. apply H. lra.
  - split.
    + intros H. apply Qeq_bool_neq in E. exfalso. apply E. rewrite H. reflexivity.
    + intros _. eexists _, _. reflexivity.
Qed.

Lemma minmax_ratio_monotone (m1 m2 : Q) :
  0 <= m1 -> m1 <= m2 -> m1 / (1 + 2 * m1) <= m2 / (1 + 2 * m2).
Proof.
  intros H1 H2.
  assert (E : m2 / (1 + 2 * m2) - m1 / (1 + 2 * m1)
              == (m2 - m1) * (/ (1 + 2 * m1) * / (1 + 2 * m2))).
  { field. split; lra. }
  assert (0 <= (m2 - m1) * (/ (1 + 2 * m1) * / (1 + 2 * m2))).
  { apply Qmult_le_0_compat; [lra | ].
    apply Qmult_le_0_compat; apply Qinv_le_0_compat; lra. }
  lra.
Qed.


End MinmaxMore.

Lemma minmax_undoes_margin_witness :
  exists lo hi,
    _minmax (padded 2 12 (1 # 20)) "axes.xmargin" demo_world
    = (Ok [lo; hi], demo_world) /\
    (lo == 2)%Q /\ (hi == 12)%Q.
Proof.
  apply (minmax_undoes_margin 2 12 (1 # 20) "axes.xmargin" demo_world).
  - unfold Qle. simpl. lia.
  - reflexivity.
Defined.


(** ** [activate_axis], continued *)

Lemma activated_axis (a : nat) (s : string) (n : axis_name) (w : World) :
  get_axis n (axes_of (activated a s w) a) =
  if axis_eqb (axis_of_side s) n then mkAxis s s else get_axis n (axes_of w a).
Proof.
  unfold axes_of, activated. simpl. rewrite lookup_total_insert_eq.
  destruct (axis_of_side s), n; reflexivity.
Qed.

Lemma fold_activated_axis (a : nat) (n : axis_name) (l : list string) (w : World) :
  get_axis n (axes_of (fold_left (fun w' s => activated a s w') l w) a) =
  match last (on_axis n l) with
  | Some s => mkAxis s s
  | None => get_axis n (axes_of w a)
  end.
Proof.
  revert w. induction l as [ | s l IH]; intros w; [reflexivity | ].
  simpl fold_left. rewrite IH. unfold on_axis. simpl List.filter.
  rewrite activated_axis.
  destruct (axis_eqb (axis_of_side s) n).
  - rewrite last_cons.
    destruct (last (List.filter _ l)); reflexivity.
  - reflexivity.
Qed.

(** X6: [activate_axis] on a list of sides applies all of them and returns
    [None]; on each of the two axes the last side of the list that lies on
    that axis is the one that shows afterwards, and an axis no side of the
    list lies on stays as it was. *)
Theorem activate_axis_last_wins (l : list string) (ax : option nat)
    (n : axis_name) (w : World) :
  Forall (fun s => In s side_names) l ->
  exists w',
    activate_axis (PyList (map PyStr l)) ax w = (Ok PyNone, w') /\
    get_axis n (axes_of w' (resolve ax w)) =
    match last (on_axis n l) with
    | Some s => mkAxis s s
    | None => get_axis n (axes_of w (resolve ax w))
    end.
Proof.
  intros H. rewrite activate_axis_list, (for_each_valid _ l w H).
  eexists. split; [reflexivity | ]. apply fold_activated_axis.
Qed.

Lemma activate_axis_last_wins_witness :
  exists w',
    activate_axis (PyList (map PyStr ["top"; "right"; "bottom"]%string))
      (Some 0%nat) demo_world = (Ok PyNone, w') /\
    get_axis XAxis (axes_of w' (resolve (Some 0%nat) demo_world)) =
    match last (on_axis XAxis ["top"; "right"; "bottom"]%string) with
    | Some s => mkAxis s s
    | None => get_axis XAxis (axes_of demo_world (resolve (Some 0%nat) demo_world))
    end.
Proof.
  apply (activate_axis_last_wins ["top"; "right"; "bottom"]%string (Some 0%nat)
           XAxis demo_world).
  repeat (constructor; [simpl; auto 6 | ]). constructor.
Defined.

Lemma same_but_positions_refl (a : nat) (w : World) : same_but_positions a w w.
Proof. unfold same_but_positions. repeat split; reflexivity. Qed.

Lemma same_but_positions_trans (a : nat) (w1 w2 w3 : World) :
  same_but_positions a w1 w2 -> same_but_positions a w2 w3 ->
  same_but_positions a w1 w3.
Proof.
  unfold same_but_positions.
  intros (A1 & A2 & A3 & A4 & A5 & A6 & A7 & A8 & A9 & A10 & A11 & A12)
         (B1 & B2 & B3 & B4 & B5 & B6 & B7 & B8 & B9 & B10 & B11 & B12).
  repeat split; try congruence.
  intros b Hb. rewrite (B1 b Hb). apply (A1 b Hb).
Qed.

Lemma update_axis_same (a : nat) (n : axis_name) (f : Axes -> Axis) (w w' : World)
    (r : result unit) :
  update_axes a (fun s => set_axis n (f s) s) w = (r, w') ->
  same_but_positions a w w'.
Proof.
  intros H. inversion H; subst. unfold same_but_positions, axes_of. simpl.
  rewrite lookup_total_insert_eq.
  repeat split; try (destruct n; reflexivity).
  intros b Hb. now rewrite lookup_total_insert_ne.
Qed.

Lemma activate_position_same (a : nat) (pos : pyval) (w w' : World)
    (r : result unit) :
  activate_position a pos w = (r, w') -> same_but_positions a w w'.
Proof.
  unfold activate_position, bind, lift, when.
  destruct (py_in pos positions) as [[] | e]; simpl.
  - destruct (py_in pos _) as [is_x | e]; simpl.
    + destruct pos; intros H;
        try (inversion H; subst; apply same_but_positions_refl).
      unfold set_ticks_position, set_label_position in H.
      match type of H with
      | update_axes a _ ?W = _ =>
          apply (same_but_positions_trans a w W w')
      end.
      * apply (update_axis_same a (if is_x then XAxis else YAxis)
                 (fun s0 => mkAxis s
                    (label_position
                       (get_axis (if is_x then XAxis else YAxis) s0)))
                 w _ (Ok tt)).
        reflexivity.
      * exact (update_axis_same a _
                 (fun s0 => mkAxis
                    (ticks_position
                       (get_axis (if is_x then XAxis else YAxis) s0)) s)
                 _ w' r H).
    + intros H; inversion H; subst; apply same_but_positions_refl.
  - intros H; inversion H; subst; apply same_but_positions_refl.
  - intros H; inversion H; subst; apply same_but_positions_refl.
Qed.

Lemma for_each_same (a : nat) (l : list pyval) (w w' : World) (r : result unit) :
  for_each l (activate_position a) w = (r, w') -> same_but_positions a w w'.
Proof.
  revert w. induction l as [ | pos l IH]; intros w H.
  - inversion H; subst. apply same_but_positions_refl.
  - simpl in H. unfold bind in H.
    destruct (activate_position a pos w) as [[[] | e] w1] eqn:E.
    + apply (same_but_positions_trans a w w1 w').
      * exact (activate_position_same _ _ _ _ _ E).
      * exact (IH w1 H).
    + inversion H; subst. exact (activate_position_same _ _ _ _ _ E).
Qed.

(** X7: whatever it is given and however it ends, [activate_axis] changes
    nothing but the tick and label positions of the axes it works on: every
    other axes, the limits, ticks, bounds and legend entries of this one,
    the figure, [plt.rcParams] and the calls made so far stay as they
    were. *)
Theorem activate_axis_frame (position : pyval) (ax : option nat)
    (w w' : World) (r : result pyval) :
  activate_axis position ax w = (r, w') ->
  same_but_positions (resolve ax w) w w'.
Proof.
  intros H. unfold activate_axis in H.
  erewrite (bind_ok _ _ w w (resolve ax w)) in H by (destruct ax; reflexivity).
  assert (Hl : forall l,
    (for_each l (activate_position (resolve ax w)) ;; ret PyNone) w = (r, w') ->
    same_but_positions (resolve ax w) w w').
  { intros l Hr. unfold bind in Hr.
    destruct (for_each l _ w) as [[[] | e] w1] eqn:E;
      inversion Hr; subst; exact (for_each_same _ _ _ _ _ E). }
  destruct position;
    try (erewrite bind_raise in H by reflexivity; inversion H; subst;
         apply same_but_positions_refl);
    erewrite bind_ok in H by reflexivity; exact (Hl _ H).
Qed.

Lemma activate_axis_frame_witness :
  same_but_positions (resolve (Some 0%nat) demo_world) demo_world
    (snd (activate_axis (PyList [PyStr "top"; PyStr "sideways"]) (Some 0%nat)
            demo_world)).
Proof.
  apply (activate_axis_frame (PyList [PyStr "top"; PyStr "sideways"])
           (Some 0%nat) demo_world _ (Raise ValueError)).
  reflexivity.
Defined.

Lemma activated_twice (a : nat) (s : string) (w : World) :
  activated a s (activated a s w) = activated a s w.
Proof.
  unfold activated, with_axes_store. simpl.
  now rewrite lookup_total_insert_eq, insert_insert_eq, set_axis_twice.
Qed.

(** X8: activating a side twice is the same as activating it once: the
    second call returns and leaves the world the first one left. *)
Theorem activate_axis_idempotent (s : string) (ax : option nat) (w : World) :
  In s side_names ->
  (activate_axis (PyStr s) ax ;; activate_axis (PyStr s) ax) w =
  activate_axis (PyStr s) ax w.
Proof.
  intros H.
  erewrite bind_ok by (now apply activate_axis_valid).
  rewrite !activate_axis_valid by assumption.
  replace (resolve ax (activated (resolve ax w) s w)) with (resolve ax w)
    by (destruct ax; reflexivity).
  now rewrite activated_twice.
Qed.

Lemma activate_axis_idempotent_witness :
  (activate_axis (PyStr "top") None ;; activate_axis (PyStr "top") None) demo_world =
  activate_axis (PyStr "top") None demo_world.
Proof.
  apply (activate_axis_idempotent "top" None demo_world). simpl. auto.
Defined.

(** ** [colorbar], continued *)

(** A new axes is none of the axes there are. *)
Lemma fresh_ne_member (c : nat) (st : gmap nat Axes) :
  c ∈ dom st -> fresh (dom st) <> c.
Proof. intros H E. apply (is_fresh (dom st)). now rewrite E. Qed.

(** The orientation [colorbar] asks for. *)
Lemma colorbar_orientation (p : string) :
  In p side_names ->
  py_in (PyStr p) [PyStr "top"; PyStr "bottom"]
  = Ok (match axis_of_side p with XAxis => true | YAxis => false end).
Proof.
  unfold side_names. simpl.
  intros [<- | [<- | [<- | [<- | []]]]]; reflexivity.
Qed.

(** [colorbar] on a side, step by step: the world it leaves. *)
Lemma colorbar_run (p : string) (im : Mappable) (width pad label : pyval)
    (kw : kwargs) (w : World) :
  In p side_names ->
  exists (q : string) (w' : World),
    _opposite_side (PyStr p) = Ok (PyStr q) /\
    colorbar im width pad (PyStr p) label kw w = (Ok (PyObj (next_obj w)), w') /\
    calls_to "plt.colorbar" (calls w') =
      (PyNone, [m_obj im],
       <["cax" := PyAxes (fresh (dom (axes_store w)))]>
         {[ "orientation" :=
              PyStr (match axis_of_side p with
                     | XAxis => "horizontal"
                     | YAxis => "vertical"
                     end) ]})
      :: calls_to "plt.colorbar" (calls w) /\
    calls_to "set_label" (calls w') =
      (if py_truthy label then [(PyObj (next_obj w), [label], ∅)] else [])
      ++ calls_to "set_label" (calls w) /\
    (companion im w <> fresh (dom (axes_store w)) ->
     get_axis (axis_of_side p) (axes_of w' (fresh (dom (axes_store w))))
     = mkAxis p p).
Proof.
  intros Hp.
  destruct (opposite_side_valid p Hp) as (q & Hq & Hqin).
  exists q. unfold colorbar.
  rewrite (colorbar_orientation p Hp).
  erewrite bind_ok by reflexivity.
  erewrite (bind_ok _ _ w w (companion im w))
    by (unfold companion; destruct (m_axes im), (m_ax im); reflexivity).
  erewrite bind_ok by (now apply append_axes_run).
  erewrite bind_ok by apply mpl_call_run.
  set (w2 := logged _ _).
  erewrite (bind_ok (when _ _) _ w2 (if py_truthy label then _ else w2) tt)
    by (unfold when; destruct (py_truthy label);
        [apply mpl_call__run | reflexivity]).
  set (w3 := if py_truthy label then _ else w2).
  erewrite bind_ok by (now apply activate_axis_valid).
  rewrite Hq.
  erewrite bind_ok by reflexivity.
  erewrite bind_ok by (now apply activate_axis_valid).
  erewrite bind_ok by (now apply append_axes_run).
  erewrite bind_ok by apply mpl_call__run.
  eexists. split; [reflexivity | split; [reflexivity | ]].
  assert (Hs3 : axes_store w3 = <[fresh (dom (axes_store w)) := new_axes]> (axes_store w)).
  { unfold w3, w2. destruct (py_truthy label); reflexivity. }
  split; [ | split].
  - unfold w3, w2. destruct (axis_of_side p), (py_truthy label); reflexivity.
  - unfold w3, w2. destruct (py_truthy label); reflexivity.
  - intros Hne. unfold axes_of, logged. simpl.
    rewrite lookup_total_insert_ne.
    + rewrite lookup_total_insert_ne by exact Hne.
      rewrite lookup_total_insert_eq. apply get_set_axis.
    + apply fresh_ne_member. simpl. rewrite !dom_insert_L.
      apply elem_of_union_r, elem_of_union_l, elem_of_singleton. reflexivity.
Qed.

(** X9: [colorbar] on one of the four sides hands the image to
    [plt.colorbar] with exactly two keyword arguments: [cax], the axes it
    has just created next to the image, and [orientation], horizontal for
    top and bottom and vertical for left and right.  The keyword arguments
    [colorbar] itself was given are not passed on.  [set_label] is called
    on the colorbar when, and only when, the label counts as true. *)
Theorem colorbar_forwards (p : string) (im : Mappable)
    (width pad label : pyval) (kw : kwargs) (w : World) :
  In p side_names ->
  exists (cbar : pyval) (w' : World),
    colorbar im width pad (PyStr p) label kw w = (Ok cbar, w') /\
    calls_to "plt.colorbar" (calls w') =
      (PyNone, [m_obj im],
       <["cax" := PyAxes (fresh (dom (axes_store w)))]>
         {[ "orientation" :=
              PyStr (match axis_of_side p with
                     | XAxis => "horizontal"
                     | YAxis => "vertical"
                     end) ]})
      :: calls_to "plt.colorbar" (calls w) /\
    calls_to "set_label" (calls w') =
      (if py_truthy label then [(cbar, [label], ∅)] else [])
      ++ calls_to "set_label" (calls w).
Proof.
  intros Hp.
  destruct (colorbar_run p im width pad label kw w Hp)
    as (q & w' & _ & Hrun & Hc & Hl & _).
  exists (PyObj (next_obj w)), w'. auto.
Qed.

Lemma colorbar_forwards_witness :
  exists (cbar : pyval) (w' : World),
    colorbar (mkMappable (PyObj 7) (Some 0%nat) None) (PyStr "7%") (PyStr "0%")
      (PyStr "left") (PyStr "density") {[ "extend" := PyStr "both" ]} demo_world
    = (Ok cbar, w') /\
    calls_to "plt.colorbar" (calls w') =
      (PyNone, [PyObj 7],
       <["cax" := PyAxes (fresh (dom (axes_store demo_world)))]>
         {[ "orientation" :=
              PyStr (match axis_of_side "left" with
                     | XAxis => "horizontal"
                     | YAxis => "vertical"
                     end) ]})
      :: calls_to "plt.colorbar" (calls demo_world) /\
    calls_to "set_label" (calls w') =
      (if py_truthy (PyStr "density") then [(cbar, [PyStr "density"], ∅)] else [])
      ++ calls_to "set_label" (calls demo_world).
Proof.
  apply (colorbar_forwards "left" (mkMappable (PyObj 7) (Some 0%nat) None)).
  simpl. auto 6.
Defined.

(** X10: for an image whose axes is one of the axes of the world,
    [colorbar] on one of the four sides creates a new axes for the
    colorbar, and that axes ends with the ticks and the label of the
    matching axis on the side the colorbar is placed at (on the side away
    from the image). *)
Theorem colorbar_own_axis (p : string) (im : Mappable)
    (width pad label : pyval) (kw : kwargs) (w : World) :
  In p side_names ->
  companion im w ∈ dom (axes_store w) ->
  exists (cbar : pyval) (w' : World) (cax : nat),
    colorbar im width pad (PyStr p) label kw w = (Ok cbar, w') /\
    (cax ∉ dom (axes_store w)) /\
    In (PyNone, [m_obj im],
        <["cax" := PyAxes cax]>
          {[ "orientation" :=
               PyStr (match axis_of_side p with
                      | XAxis => "horizontal"
                      | YAxis => "vertical"
                      end) ]})
       (calls_to "plt.colorbar" (calls w')) /\
    get_axis (axis_of_side p) (axes_of w' cax) = mkAxis p p.
Proof.
  intros Hp Hin.
  destruct (colorbar_run p im width pad label kw w Hp)
    as (q & w' & _ & Hrun & Hc & _ & Hax).
  exists (PyObj (next_obj w)), w', (fresh (dom (axes_store w))).
  split; [exact Hrun | ].
  split; [apply is_fresh | ].
  split; [rewrite Hc; left; reflexivity | ].
  apply Hax. intros E. apply (is_fresh (dom (axes_store w))).
  rewrite <- E. exact Hin.
Qed.

Lemma colorbar_own_axis_witness :
  exists (cbar : pyval) (w' : World) (cax : nat),
    colorbar (mkMappable (PyObj 7) None None) (PyStr "7%") (PyStr "0%")
      (PyStr "top") PyNone ∅ demo_world = (Ok cbar, w') /\
    (cax ∉ dom (axes_store demo_world)) /\
    In (PyNone, [PyObj 7],
        <["cax" := PyAxes cax]>
          {[ "orientation" :=
               PyStr (match axis_of_side "top" with
                      | XAxis => "horizontal"
                      | YAxis => "vertical"
                      end) ]})
       (calls_to "plt.colorbar" (calls w')) /\
    get_axis (axis_of_side "top") (axes_of w' cax) = mkAxis "top" "top".
Proof.
  apply (colorbar_own_axis "top" (mkMappable (PyObj 7) None None)).
  - simpl. auto.
  - vm_compute. reflexivity.
Defined.

(** ** [legend], continued *)

Lemma setdefault_same (k : string) (x : pyval) (kw : kwargs) :
  setdefault k x kw !! k = Some (default x (kw !! k)).
Proof.
  unfold setdefault. destruct (kw !! k) as [y | ] eqn:E; simpl.
  - exact E.
  - apply lookup_insert_eq.
Qed.

Lemma setdefault_other (k k' : string) (x : pyval) (kw : kwargs) :
  k <> k' -> setdefault k x kw !! k' = kw !! k'.
Proof.
  intros H. unfold setdefault. destruct (kw !! k); [reflexivity | ].
  now apply lookup_insert_ne.
Qed.

Lemma setdefault_given (k k' : string) (x y : pyval) (kw : kwargs) :
  kw !! k' = Some y -> setdefault k x kw !! k' = Some y.
Proof.
  intros H. destruct (decide (k = k')) as [-> | Hne].
  - rewrite setdefault_same, H. reflexivity.
  - now rewrite setdefault_other.
Qed.

Lemma legend_defaults_given (v : pyval) (kw : kwargs) (k : string) (y : pyval) :
  kw !! k = Some y -> legend_defaults v kw !! k = Some y.
Proof.
  intros H. unfold legend_defaults.
  repeat match goal with
         | |- context [if ?b then _ else _] => destruct b
         end;
    repeat apply setdefault_given; exact H.
Qed.

Lemma legend_kwargs_given (v : pyval) (n : nat) (kw : kwargs) (k : string)
    (y : pyval) :
  kw !! k = Some y -> legend_kwargs v n kw !! k = Some y.
Proof.
  intros H. unfold legend_kwargs.
  destruct (existsb _ _); [apply setdefault_given | ];
    now apply legend_defaults_given.
Qed.

Lemma legend_move_run (v : pyval) (w : World) :
  allowed_outside v ->
  when (py_truthy v)
    (let* opposite := lift (_opposite_side v) in
     activate_axis opposite None ;; ret tt) w = (Ok tt, legend_moved v w).
Proof.
  intros Ha. unfold legend_moved.
  destruct (py_truthy v) eqn:Ht; [ | reflexivity].
  destruct (allowed_truthy_side v Ha Ht) as (s & -> & Hs).
  destruct (opposite_side_valid s Hs) as (q & Hq & Hqin).
  unfold when. rewrite Hq.
  erewrite bind_ok by reflexivity.
  erewrite bind_ok by (now apply activate_axis_valid).
  reflexivity.
Qed.

Lemma legend_moved_frame (v : pyval) (w : World) :
  same_but_positions (current_axes w) w (legend_moved v w).
Proof.
  unfold legend_moved.
  destruct (py_truthy v); [ | apply same_but_positions_refl].
  destruct (_opposite_side v) as [[ | | | | q | | | | ] | e];
    try apply same_but_positions_refl.
  unfold same_but_positions, activated, axes_of. simpl.
  rewrite lookup_total_insert_eq.
  repeat split; try (destruct (axis_of_side q); reflexivity).
  intros b Hb. now rewrite lookup_total_insert_ne.
Qed.

Lemma collected_moved (v : pyval) (w : World) (axs : list pyval) :
  collected (legend_moved v w) axs = collected w axs.
Proof.
  unfold collected. f_equal.
  induction axs as [ | x axs IH]; [reflexivity | ].
  simpl. rewrite IH. f_equal.
  destruct x; try reflexivity.
  destruct (legend_moved_frame v w) as (Hother & _ & _ & _ & _ & _ & Hle & _).
  destruct (decide (a = current_axes w)) as [-> | Hne].
  - exact Hle.
  - now rewrite Hother.
Qed.

Lemma legend_run (style : string) (args : list pyval) (v : pyval)
    (ax : option nat) (axs : option (list pyval)) (kw : kwargs) (w : World) :
  hashable v = true ->
  allowed_outside v ->
  (forall l, axs = Some l -> forallb is_axes l = true) ->
  exists w',
    legend style args v ax axs kw w = (legend_outcome style w, w') /\
    axes_store w' = axes_store (legend_moved v w) /\
    calls_to "legend" (calls w') =
      (PyAxes (resolve ax w),
       PyList (fst (collected w (legend_axes ax axs w)))
       :: PyList (snd (collected w (legend_axes ax axs w))) :: args,
       legend_kwargs v (length (snd (collected w (legend_axes ax axs w)))) kw)
      :: calls_to "legend" (calls w).
Proof.
  intros Hh Ha Haxs. unfold legend.
  erewrite bind_ok by (now apply outside_check_ok).
  erewrite bind_ok by reflexivity.
  rewrite (bind_ok _ _ _ _ _ (parse_axes_run args ax w)). cbv beta iota.
  erewrite (bind_ok _ _ w w (legend_axes ax axs w)).
  2:{ unfold legend_axes. destruct axs as [l | ]; [ | reflexivity].
      rewrite (Haxs l eq_refl). reflexivity. }
  erewrite bind_ok by (now apply legend_move_run).
  assert (Hm := legend_moved_frame v w).
  destruct Hm as (_ & _ & _ & _ & _ & _ & _ & _ & _ & _ & Hrc & Hcalls).
  assert (Hn : next_obj (legend_moved v w) = next_obj w).
  { unfold legend_moved. destruct (py_truthy v); [ | reflexivity].
    destruct (_opposite_side v) as [[ | | | | q | | | | ] | e]; reflexivity. }
  erewrite (bind_ok _ _ _ (legend_moved v w)
              (collected w (legend_axes ax axs w)))
    by (unfold _get_legend_handles_labels, gets;
        now rewrite <- (collected_moved v w)).
  destruct (collected w (legend_axes ax axs w)) as [hs ls]. cbv beta iota.
  unfold py_in. rewrite Hh.
  erewrite bind_ok by reflexivity.
  erewrite bind_ok by apply mpl_call_run.
  unfold legend_outcome, legend_kwargs. simpl fst. simpl snd.
  rewrite Hn.
  set (tb := existsb (py_eq v) [PyStr "top"; PyStr "bottom"]).
  destruct (String.eqb style "minimal").
  - erewrite bind_ok by apply mpl_call__run.
    erewrite bind_ok by reflexivity.
    destruct tb; simpl when;
      [erewrite bind_ok by apply mpl_call__run | erewrite bind_ok by reflexivity];
      eexists; (split; [reflexivity | ]); unfold logged; cbn -[String.eqb];
      rewrite Hcalls; split; reflexivity.
  - destruct (String.eqb style "default").
    + set (w2 := logged _ (legend_moved v w)).
      assert (Hrc2 : rcParams w2 !! "axes.linewidth"
                     = rcParams w !! "axes.linewidth").
      { unfold w2. simpl. now rewrite Hrc. }
      destruct (rcParams w !! "axes.linewidth") as [lw | ] eqn:Elw.
      * erewrite (bind_ok (bind (rc _) _) _ w2 _ tt)
          by (erewrite (bind_ok (rc _) _ w2 w2 lw)
                by (unfold rc; now rewrite Hrc2);
              apply mpl_call__run).
        erewrite bind_ok by reflexivity.
        destruct tb; simpl when;
          [erewrite bind_ok by apply mpl_call__run
          | erewrite bind_ok by reflexivity];
          eexists; (split; [reflexivity | ]); unfold w2, logged;
          cbn -[String.eqb]; rewrite Hcalls; split; reflexivity.
      * erewrite (bind_raise (bind (rc _) _) _ w2 w2 KeyError)
          by (erewrite (bind_raise (rc _) _ w2 w2 KeyError);
              [reflexivity | unfold rc; now rewrite Hrc2]).
        eexists; (split; [reflexivity | ]); unfold w2, logged;
          cbn -[String.eqb]; rewrite Hcalls; split; reflexivity.
    + erewrite bind_ok by reflexivity.
      erewrite bind_ok by reflexivity.
      destruct tb; simpl when;
        [erewrite bind_ok by apply mpl_call__run | erewrite bind_ok by reflexivity];
        eexists; (split; [reflexivity | ]); unfold logged; cbn -[String.eqb];
        rewrite Hcalls; split; reflexivity.
Qed.

(** When [legend] returns, both checks have passed and no [KeyError] has
    come in between: everything [legend_run] gives holds of the world it
    leaves. *)
Lemma legend_returned (style : string) (args : list pyval) (v : pyval)
    (ax : option nat) (axs : option (list pyval)) (kw : kwargs)
    (w w' : World) (r : pyval) :
  legend style args v ax axs kw w = (Ok r, w') ->
  allowed_outside v /\
  axes_store w' = axes_store (legend_moved v w) /\
  calls_to "legend" (calls w') =
    (PyAxes (resolve ax w),
     PyList (fst (collected w (legend_axes ax axs w)))
     :: PyList (snd (collected w (legend_axes ax axs w))) :: args,
     legend_kwargs v (length (snd (collected w (legend_axes ax axs w)))) kw)
    :: calls_to "legend" (calls w).
Proof.
  intros H.
  destruct (hashable v) eqn:Hh.
  2:{ rewrite (legend_rejects_unhashable style args v ax axs kw w Hh) in H.
      discriminate H. }
  destruct (existsb (py_eq v) outside_values) eqn:Ho.
  2:{ rewrite (legend_rejects_outside style args v ax axs kw w Hh) in H;
        [discriminate H | ].
      intros Ha. apply outside_values_allowed in Ha. congruence. }
  apply outside_values_allowed in Ho.
  assert (Haxs : forall l, axs = Some l -> forallb is_axes l = true).
  { intros l ->. destruct (forallb is_axes l) eqn:El; [reflexivity | ].
    rewrite (legend_rejects_axs style args v ax l kw w Hh Ho El) in H.
    discriminate H. }
  destruct (legend_run style args v ax axs kw w Hh Ho Haxs) as (w1 & E & Hst & Hc).
  rewrite E in H. inversion H; subst w1.
  auto.
Qed.

(** X11: when [legend] returns it has called [ax.legend] on the axes it
    resolved, with the handles and the labels collected from [axs] (from
    that axes alone when [axs] is [None]) followed by the caller's
    positional arguments; and every keyword argument the caller gave
    reaches [ax.legend] with the caller's value: the defaults [legend]
    sets never override one. *)
Theorem legend_caller_keywords_win (style : string) (args : list pyval)
    (v : pyval) (ax : option nat) (axs : option (list pyval)) (kw : kwargs)
    (w w' : World) (r : pyval) :
  legend style args v ax axs kw w = (Ok r, w') ->
  exists kw',
    calls_to "legend" (calls w') =
      (PyAxes (resolve ax w),
       PyList (fst (collected w (legend_axes ax axs w)))
       :: PyList (snd (collected w (legend_axes ax axs w))) :: args,
       kw')
      :: calls_to "legend" (calls w) /\
    forall k x, kw !! k = Some x -> kw' !! k = Some x.
Proof.
  intros H.
  destruct (legend_returned style args v ax axs kw w w' r H) as (_ & _ & Hc).
  eexists. split; [exact Hc | ].
  intros k x. apply legend_kwargs_given.
Qed.

(** X12: for a legend above or below the axes ([outside] is ['top'] or
    ['bottom']) the keyword arguments that reach [ax.legend] hold, where the
    caller gave none: [ncol], the number of labels collected, [mode],
    ['expand'], [loc], ['lower left'] for the top and ['upper left'] for
    the bottom, and [bbox_to_anchor], a strip of height 0.01 along that
    edge; every other keyword is as the caller gave it. *)
Theorem legend_top_bottom_defaults (style : string) (args : list pyval)
    (top : bool) (ax : option nat) (axs : option (list pyval)) (kw : kwargs)
    (w w' : World) (r : pyval) :
  legend style args (PyStr (if top then "top" else "bottom")) ax axs kw w
  = (Ok r, w') ->
  exists t pos kw' rest,
    calls_to "legend" (calls w') = (t, pos, kw') :: rest /\
    kw' !! "ncol" =
      Some (default
              (PyInt (Z.of_nat (length (snd (collected w (legend_axes ax axs w))))))
              (kw !! "ncol")) /\
    kw' !! "mode" = Some (default (PyStr "expand") (kw !! "mode")) /\
    kw' !! "loc" =
      Some (default (PyStr (if top then "lower left" else "upper left"))
              (kw !! "loc")) /\
    kw' !! "bbox_to_anchor" =
      Some (default
              (PyTuple [PyFloat 0; PyFloat (if top then 1 else 0); PyFloat 1;
                        PyFloat (1 # 100)])
              (kw !! "bbox_to_anchor")) /\
    forall k, ~ In k ["ncol"; "mode"; "loc"; "bbox_to_anchor"]%string ->
              kw' !! k = kw !! k.
Proof.
  intros H.
  destruct (legend_returned style args _ ax axs kw w w' r H) as (_ & _ & Hc).
  eexists _, _, _, _. split; [exact Hc | ].
  unfold legend_kwargs, legend_defaults.
  destruct top; simpl existsb; cbv iota; simpl py_eq; cbv iota.
  all: repeat split;
    try (intros k Hk; simpl in Hk;
         rewrite !setdefault_other by (intros <-; apply Hk; auto 6);
         reflexivity).
  all: repeat (first [rewrite setdefault_same
                     | rewrite setdefault_other by discriminate]);
    reflexivity.
Qed.

Lemma legend_top_bottom_defaults_witness :
  let w' := snd (legend "minimal" [] (PyStr "top") None None
                   {[ "loc" := PyStr "center" ]} demo_world) in
  exists t pos kw' rest,
    calls_to "legend" (calls w') = (t, pos, kw') :: rest /\
    kw' !! "ncol" =
      Some (default
              (PyInt (Z.of_nat (length (snd (collected demo_world
                                               (legend_axes None None demo_world))))))
              (({[ "loc" := PyStr "center" ]} : kwargs) !! "ncol")) /\
    kw' !! "mode" =
      Some (default (PyStr "expand")
              (({[ "loc" := PyStr "center" ]} : kwargs) !! "mode")) /\
    kw' !! "loc" =
      Some (default (PyStr "lower left")
              (({[ "loc" := PyStr "center" ]} : kwargs) !! "loc")) /\
    kw' !! "bbox_to_anchor" =
      Some (default
              (PyTuple [PyFloat 0; PyFloat 1; PyFloat 1; PyFloat (1 # 100)])
              (({[ "loc" := PyStr "center" ]} : kwargs) !! "bbox_to_anchor")) /\
    forall k, ~ In k ["ncol"; "mode"; "loc"; "bbox_to_anchor"]%string ->
              kw' !! k = ({[ "loc" := PyStr "center" ]} : kwargs) !! k.
Proof.
  apply (legend_top_bottom_defaults "minimal" [] true None None
           {[ "loc" := PyStr "center" ]} demo_world _ (PyObj 0)).
  reflexivity.
Defined.

Lemma legend_caller_keywords_win_witness :
  let w' := snd (legend "minimal" [PyStr "title"] (PyStr "right") None None
                   {[ "loc" := PyStr "center" ]} demo_world) in
  exists kw',
    calls_to "legend" (calls w') =
      (PyAxes (resolve None demo_world),
       PyList (fst (collected demo_world (legend_axes None None demo_world)))
       :: PyList (snd (collected demo_world (legend_axes None None demo_world)))
       :: [PyStr "title"],
       kw')
      :: calls_to "legend" (calls demo_world) /\
    forall k x, ({[ "loc" := PyStr "center" ]} : kwargs) !! k = Some x ->
                kw' !! k = Some x.
Proof.
  apply (legend_caller_keywords_win "minimal" [PyStr "title"] (PyStr "right")
           None None {[ "loc" := PyStr "center" ]} demo_world _ (PyObj 0)).
  reflexivity.
Defined.

(** X13: for a legend to the right or to the left of the axes the keyword
    arguments that reach [ax.legend] hold, where the caller gave none:
    [loc], ['center left'] for the right and ['center right'] for the left,
    and [bbox_to_anchor], a point 0.03 outside that edge at half height;
    every other keyword is as the caller gave it, so no [ncol] and no
    [mode] are added. *)
Theorem legend_left_right_defaults (style : string) (args : list pyval)
    (right : bool) (ax : option nat) (axs : option (list pyval)) (kw : kwargs)
    (w w' : World) (r : pyval) :
  legend style args (PyStr (if right then "right" else "left")) ax axs kw w
  = (Ok r, w') ->
  exists t pos kw' rest,
    calls_to "legend" (calls w') = (t, pos, kw') :: rest /\
    kw' !! "loc" =
      Some (default (PyStr (if right then "center left" else "center right"))
              (kw !! "loc")) /\
    kw' !! "bbox_to_anchor" =
      Some (default
              (PyTuple [PyFloat (if right then 103 # 100 else - (3 # 100));
                        PyFloat (1 # 2)])
              (kw !! "bbox_to_anchor")) /\
    forall k, ~ In k ["loc"; "bbox_to_anchor"]%string -> kw' !! k = kw !! k.
Proof.
  intros H.
  destruct (legend_returned style args _ ax axs kw w w' r H) as (_ & _ & Hc).
  eexists _, _, _, _. split; [exact Hc | ].
  unfold legend_kwargs, legend_defaults.
  destruct right; simpl existsb; cbv iota; simpl py_eq; cbv iota.
  all: repeat split;
    try (intros k Hk; simpl in Hk;
         rewrite !setdefault_other by (intros <-; apply Hk; auto 6);
         reflexivity).
  all: repeat (first [rewrite setdefault_same
                     | rewrite setdefault_other by discriminate]);
    reflexivity.
Qed.

Lemma legend_left_right_defaults_witness :
  let w' := snd (legend "minimal" [] (PyStr "left") None None ∅ demo_world) in
  exists t pos kw' rest,
    calls_to "legend" (calls w') = (t, pos, kw') :: rest /\
    kw' !! "loc" =
      Some (default (PyStr "center right") ((∅ : kwargs) !! "loc")) /\
    kw' !! "bbox_to_anchor" =
      Some (default (PyTuple [PyFloat (- (3 # 100)); PyFloat (1 # 2)])
              ((∅ : kwargs) !! "bbox_to_anchor")) /\
    forall k, ~ In k ["loc"; "bbox_to_anchor"]%string ->
              kw' !! k = (∅ : kwargs) !! k.
Proof.
  apply (legend_left_right_defaults "minimal" [] false None None ∅
           demo_world _ (PyObj 0)).
  reflexivity.
Defined.

Lemma falsy_not_side (v : pyval) (s : string) :
  In s side_names -> py_truthy v = false -> py_eq v (PyStr s) = false.
Proof.
  intros Hs Hf. destruct (py_eq v (PyStr s)) eqn:E; [ | reflexivity].
  apply py_eq_str in E. subst v.
  unfold side_names in Hs. simpl in Hs.
  destruct Hs as [<- | [<- | [<- | [<- | []]]]]; discriminate Hf.
Qed.

(** X14: a legend inside the axes ([outside] is [False], or any allowed
    value that counts as false) moves no ticks and sets no defaults: when
    [legend] returns, the axes are as they were and [ax.legend] has got the
    caller's keyword arguments unchanged. *)
Theorem legend_inside_unchanged (style : string) (args : list pyval)
    (v : pyval) (ax : option nat) (axs : option (list pyval)) (kw : kwargs)
    (w w' : World) (r : pyval) :
  py_truthy v = false ->
  legend style args v ax axs kw w = (Ok r, w') ->
  axes_store w' = axes_store w /\
  calls_to "legend" (calls w') =
    (PyAxes (resolve ax w),
     PyList (fst (collected w (legend_axes ax axs w)))
     :: PyList (snd (collected w (legend_axes ax axs w))) :: args,
     kw)
    :: calls_to "legend" (calls w).
Proof.
  intros Hf H.
  destruct (legend_returned style args v ax axs kw w w' r H) as (_ & Hst & Hc).
  split.
  - rewrite Hst. unfold legend_moved. now rewrite Hf.
  - rewrite Hc. unfold legend_kwargs, legend_defaults. simpl existsb.
    rewrite !(falsy_not_side v) by (assumption || (simpl; auto 6)).
    reflexivity.
Qed.

Lemma legend_inside_unchanged_witness :
  let w' := snd (legend "default" [] (PyBool false) (Some 0%nat) None
                   {[ "loc" := PyStr "best" ]} demo_world) in
  axes_store w' = axes_store demo_world /\
  calls_to "legend" (calls w') =
    (PyAxes (resolve (Some 0%nat) demo_world),
     PyList (fst (collected demo_world (legend_axes (Some 0%nat) None demo_world)))
     :: PyList (snd (collected demo_world (legend_axes (Some 0%nat) None demo_world)))
     :: [],
     {[ "loc" := PyStr "best" ]})
    :: calls_to "legend" (calls demo_world).
Proof.
  apply (legend_inside_unchanged "default" [] (PyBool false) (Some 0%nat) None
           {[ "loc" := PyStr "best" ]} demo_world _ (PyObj 0)).
  - reflexivity.
  - reflexivity.
Defined.



(** ** [grid], continued *)

(** X16: under the style [default], and with neither [which] nor
    [linestyle] among the caller's keyword arguments, [grid] returns after
    three calls on the resolved axes: [ax.grid] for the major grid with
    dashed lines, [ax.grid] for the minor grid with dotted lines, both with
    the caller's keyword arguments added, and [ax.set_axisbelow(True)].  The
    caller's positional arguments are not passed on. *)
Theorem grid_default_calls (args : list pyval) (ax : option nat) (kw : kwargs)
    (w : World) :
  kw !! "which" = None ->
  kw !! "linestyle" = None ->
  exists g1 g2 w',
    grid "default" args ax kw w = (Ok (PyTuple [g1; g2]), w') /\
    calls_to "grid" (calls w') =
      [(PyAxes (resolve ax w), [],
        <["which" := PyStr "minor"]> (<["linestyle" := PyStr "dotted"]> kw));
       (PyAxes (resolve ax w), [],
        <["which" := PyStr "major"]> (<["linestyle" := PyStr "--"]> kw))]
      ++ calls_to "grid" (calls w) /\
    calls_to "set_axisbelow" (calls w') =
      (PyAxes (resolve ax w), [PyBool true], ∅)
      :: calls_to "set_axisbelow" (calls w).
Proof.
  intros Hw Hl. unfold grid.
  rewrite (bind_ok _ _ _ _ _ (parse_axes_run args ax w)).
  cbv beta iota. rewrite String.eqb_refl.
  erewrite bind_ok by (unfold lift; simpl; rewrite Hw, Hl; reflexivity).
  erewrite bind_ok by apply mpl_call_run.
  erewrite bind_ok by (unfold lift; simpl; rewrite Hw, Hl; reflexivity).
  erewrite bind_ok by apply mpl_call_run.
  erewrite bind_ok by apply mpl_call__run.
  eexists _, _, _. split; [reflexivity | ]. split; reflexivity.
Qed.

Lemma grid_default_calls_witness :
  exists g1 g2 w',
    grid "default" [PyBool true] None {[ "alpha" := PyFloat (1 # 2) ]} demo_world
    = (Ok (PyTuple [g1; g2]), w') /\
    calls_to "grid" (calls w') =
      [(PyAxes (resolve None demo_world), [],
        <["which" := PyStr "minor"]>
          (<["linestyle" := PyStr "dotted"]> {[ "alpha" := PyFloat (1 # 2) ]}));
       (PyAxes (resolve None demo_world), [],
        <["which" := PyStr "major"]>
          (<["linestyle" := PyStr "--"]> {[ "alpha" := PyFloat (1 # 2) ]}))]
      ++ calls_to "grid" (calls demo_world) /\
    calls_to "set_axisbelow" (calls w') =
      (PyAxes (resolve None demo_world), [PyBool true], ∅)
      :: calls_to "set_axisbelow" (calls demo_world).
Proof.
  apply (grid_default_calls [PyBool true] None {[ "alpha" := PyFloat (1 # 2) ]}
           demo_world); reflexivity.
Defined.

(** X17: under the style [default], a caller who passes [which] or
    [linestyle] to [grid] gets a [TypeError], with no call made and the
    world as it was: the wrapper sets both keywords itself. *)
Theorem grid_rejects_own_keywords (args : list pyval) (ax : option nat)
    (kw : kwargs) (w : World) :
  is_Some (kw !! "which") \/ is_Some (kw !! "linestyle") ->
  grid "default" args ax kw w = (Raise TypeError, w).
Proof.
  intros H. unfold grid.
  rewrite (bind_ok _ _ _ _ _ (parse_axes_run args ax w)).
  cbv beta iota. rewrite String.eqb_refl.
  erewrite bind_raise; [reflexivity | ].
  unfold lift. simpl.
  destruct (kw !! "which") as [x | ]; [reflexivity | ].
  destruct H as [[x Hx] | [x Hx]]; [discriminate Hx | ].
  now rewrite Hx.
Qed.

Lemma grid_rejects_own_keywords_witness :
  grid "default" [] None {[ "linestyle" := PyStr "-" ]} demo_world
  = (Raise TypeError, demo_world).
Proof.
  apply (grid_rejects_own_keywords [] None {[ "linestyle" := PyStr "-" ]}
           demo_world).
  right. eexists. reflexivity.
Defined.

(** ** [plot], continued *)

(** X18: under every style but [minimal], [plot] is the wrapped call and
    nothing else: it calls [ax.plot] on the resolved axes with the
    caller's positional and keyword arguments unchanged, returns what the
    call returned, and makes no other call. *)
Theorem plot_plain (style : string) (args : list pyval) (ax : option nat)
    (kw : kwargs) (w : World) :
  style <> "minimal"%string ->
  exists r w',
    plot style args ax kw w = (Ok r, w') /\
    calls w' = Call (PyAxes (resolve ax w)) "plot" args kw r :: calls w.
Proof.
  intros H. unfold plot.
  rewrite (bind_ok _ _ _ _ _ (parse_axes_run args ax w)). cbv beta iota.
  erewrite bind_ok by apply mpl_call_run.
  destruct (String.eqb_spec style "minimal"); [contradiction | ].
  erewrite bind_ok by reflexivity.
  eexists _, _. split; reflexivity.
Qed.

Lemma plot_plain_witness :
  exists r w',
    plot "default" [PyList [PyInt 1; PyInt 2]] None
      {[ "label" := PyStr "data" ]} demo_world = (Ok r, w') /\
    calls w' = Call (PyAxes (resolve None demo_world)) "plot"
                 [PyList [PyInt 1; PyInt 2]] {[ "label" := PyStr "data" ]} r
               :: calls demo_world.
Proof.
  apply (plot_plain "default"). discriminate.
Defined.

Lemma spines_run (a : nat) (first second : string) (ticks : list Q)
    (lo hi : Q) (w : World) :
  exists n',
    when (negb (Nat.eqb (length ticks) 0))
      (let* lo' := index [lo; hi] 0 in
       let* hi' := index [lo; hi] 1 in
       mpl_call_ (PyAxes a) first [PyFloat lo'; PyFloat hi'] ∅ ;;
       mpl_call_ (PyAxes a) second [PyFloat lo'; PyFloat hi'] ∅) w
    = (Ok tt,
       with_log n'
         (match ticks with
          | [] => []
          | _ => [Call (PyAxes a) second [PyFloat lo; PyFloat hi] ∅
                    (PyObj (S (next_obj w)));
                  Call (PyAxes a) first [PyFloat lo; PyFloat hi] ∅
                    (PyObj (next_obj w))]
          end) w).
Proof.
  destruct ticks as [ | t ticks]; simpl.
  - exists (next_obj w). unfold ret. f_equal. apply with_log_nil.
  - eexists. unfold index. simpl.
    erewrite bind_ok by reflexivity.
    erewrite bind_ok by reflexivity.
    erewrite bind_ok by apply mpl_call__run.
    rewrite mpl_call__run.
    rewrite (with_log_nil w) at 1 2 3.
    rewrite !with_log_logged. reflexivity.
Qed.

Lemma calls_to_app (meth : string) (l1 l2 : list event) :
  calls_to meth (l1 ++ l2) = calls_to meth l1 ++ calls_to meth l2.
Proof. unfold calls_to. apply flat_map_app. Qed.

Lemma xminmax_run (a : nat) (m : Q) (w : World) :
  rcParams w !! "axes.xmargin" = Some m ->
  (0 <= m)%Q ->
  _xminmax a w =
  (Ok [minmax_lo (fst (xlim (axes_of w a))) (snd (xlim (axes_of w a))) m;
       minmax_hi (fst (xlim (axes_of w a))) (snd (xlim (axes_of w a))) m], w).
Proof.
  intros Hrc Hm. unfold _xminmax.
  erewrite bind_ok by reflexivity.
  destruct (xlim (axes_of w a)) as [x0 x1]. now apply minmax_run.
Qed.

Lemma yminmax_run (a : nat) (m : Q) (w : World) :
  rcParams w !! "axes.ymargin" = Some m ->
  (0 <= m)%Q ->
  _yminmax a w =
  (Ok [minmax_lo (fst (ylim (axes_of w a))) (snd (ylim (axes_of w a))) m;
       minmax_hi (fst (ylim (axes_of w a))) (snd (ylim (axes_of w a))) m], w).
Proof.
  intros Hrc Hm. unfold _yminmax.
  erewrite bind_ok by reflexivity.
  destruct (ylim (axes_of w a)) as [y0 y1]. now apply minmax_run.
Qed.



(** ** [savefig], continued *)

(** X20: on a figure without axes [savefig] raises [IndexError] at
    [fig.get_axes()[0]]: nothing is laid out, resized or written. *)
Theorem savefig_needs_axes (style mode fname : string) (ucs : bool)
    (kw : kwargs) (w : World) :
  fig_axes w = [] ->
  savefig style mode fname ucs kw w = (Raise IndexError, w).
Proof. apply savefig_no_axes. Qed.

Lemma savefig_needs_axes_witness :
  savefig "default" "poster" "fig" true ∅ empty_figure
  = (Raise IndexError, empty_figure).
Proof.
  apply (savefig_needs_axes "default" "poster" "fig" true ∅ empty_figure).
  reflexivity.
Defined.

(** X21: in every mode but [poster] and [beamer], when [savefig] returns
    the layout has run at the size the figure came with; the file is
    written at that size with [use_canvas_size=False], and at that size
    divided by the width and the height of the first axes otherwise; the
    figure has the size it came with afterwards. *)
Theorem savefig_plain_mode (style mode fname : string) (ucs : bool)
    (kw : kwargs) (w w' : World) (r : pyval) :
  mode <> "poster"%string ->
  mode <> "beamer"%string ->
  savefig style mode fname ucs kw w = (Ok r, w') ->
  exists a rest,
    fig_axes w = a :: rest /\
    layout_sizes (calls w') = fig_size w :: layout_sizes (calls w) /\
    saved_sizes (calls w') =
      (if ucs
       then (fst (fig_size w) / snd (fst (layout w (fig_size w) a)),
             snd (fig_size w) / snd (layout w (fig_size w) a))%Q
       else fig_size w)
      :: saved_sizes (calls w) /\
    fig_size w' = fig_size w.
Proof.
  intros Hp Hb H.
  destruct (savefig_returned style mode fname ucs kw w w' r H)
    as (a & rest & Hfig & _ & Hsize & Hlay & _ & Hsaved).
  assert (Hl : layout_size mode (fig_size w) = fig_size w).
  { unfold layout_size.
    destruct (String.eqb_spec mode "poster"); [contradiction | ].
    destruct (String.eqb_spec mode "beamer"); [contradiction | reflexivity]. }
  rewrite Hl in Hlay, Hsaved.
  exists a, rest. repeat split; assumption.
Qed.

Lemma savefig_plain_mode_witness :
  let w' := snd (savefig "default" "default" "fig" true ∅ demo_world) in
  exists a rest,
    fig_axes demo_world = a :: rest /\
    layout_sizes (calls w') = fig_size demo_world :: layout_sizes (calls demo_world) /\
    saved_sizes (calls w') =
      (fst (fig_size demo_world)
       / snd (fst (layout demo_world (fig_size demo_world) a)),
       snd (fig_size demo_world)
       / snd (layout demo_world (fig_size demo_world) a))%Q
      :: saved_sizes (calls demo_world) /\
    fig_size w' = fig_size demo_world.
Proof.
  apply (savefig_plain_mode "default" "default" "fig" true ∅ demo_world _ PyNone).
  - discriminate.
  - discriminate.
  - reflexivity.
Defined.

(** *** What a computation leaves as it was *)

Section Stable.

Context {X : Type} (f : World -> X).

Lemma stable_ret {A} (a : A) : stable f (ret a).
Proof. intros w r w' H. inversion H. reflexivity. Qed.

Lemma stable_raise {A} (e : exn) : stable f (@raise A e).
Proof. intros w r w' H. inversion H. reflexivity. Qed.

Lemma stable_gets {A} (g : World -> A) : stable f (gets g).
Proof. intros w r w' H. inversion H. reflexivity. Qed.

Lemma stable_modify (g : World -> World) :
  (forall w, f (g w) = f w) -> stable f (modify g).
Proof. intros Hg w r w' H. inversion H. apply Hg. Qed.

Lemma stable_bind {A B} (m : M A) (k : A -> M B) :
  stable f m -> (forall a, stable f (k a)) -> stable f (bind m k).
Proof.
  intros Hm Hk w r w' H. unfold bind in H.
  destruct (m w) as [[a | e] w1] eqn:E.
  - rewrite (Hk a w1 r w' H). exact (Hm w _ w1 E).
  - inversion H; subst. exact (Hm w _ w' E).
Qed.

Lemma stable_when (b : bool) (m : M unit) : stable f m -> stable f (when b m).
Proof. intros H. destruct b; [exact H | apply stable_ret]. Qed.

Lemma stable_for_each {A} (l : list A) (body : A -> M unit) :
  (forall x, stable f (body x)) -> stable f (for_each l body).
Proof.
  intros H. induction l as [ | x l IH]; simpl.
  - apply stable_ret.
  - apply stable_bind; [apply H | intros _; exact IH].
Qed.

Lemma stable_index {A} (l : list A) (i : nat) : stable f (index l i).
Proof.
  unfold index. destruct (l !! i); [apply stable_ret | apply stable_raise].
Qed.

Lemma stable_mpl_call_ (t : pyval) (m : string) (args : list pyval) (kw : kwargs) :
  (forall e n w, f (with_event e (with_next_obj n w)) = f w) ->
  stable f (mpl_call_ t m args kw).
Proof.
  intros Hf w r w' H. rewrite mpl_call__run in H. inversion H; subst.
  apply Hf.
Qed.

End Stable.

(** [savefig] leaves the axes of the figure and the layout engine alone. *)
Lemma savefig_stable {X} (f : World -> X) (style mode fname : string)
    (ucs : bool) (kw : kwargs) :
  (forall e n w, f (with_event e (with_next_obj n w)) = f w) ->
  (forall e w, f (with_event e w) = f w) ->
  (forall s w, f (with_fig_size s w) = f w) ->
  (forall g w, f (with_axes_store g w) = f w) ->
  stable f (savefig style mode fname ucs kw).
Proof.
  intros H1 H2 H3 H4. unfold savefig.
  apply stable_bind; [apply stable_gets | intros l].
  apply stable_bind; [apply stable_index | intros a].
  apply stable_bind; [apply stable_gets | intros s].
  apply stable_bind.
  { apply stable_when. apply stable_bind; [apply stable_gets | intros l'].
    apply stable_for_each. intros b. unfold reduce_ticks.
    apply stable_bind; [apply stable_gets | intros xt].
    apply stable_bind; [apply stable_when, stable_mpl_call_, H1 | intros _].
    apply stable_bind; [apply stable_gets | intros yt].
    apply stable_when, stable_mpl_call_, H1. }
  intros _. apply stable_bind.
  { destruct (String.eqb mode "poster");
      [apply stable_modify; intros; apply H3 | ].
    destruct (String.eqb mode "beamer");
      [apply stable_modify; intros; apply H3 | apply stable_ret]. }
  intros _. apply stable_bind.
  { apply stable_modify. intros w. rewrite H2. apply H4. }
  intros _. apply stable_bind.
  { apply stable_when. apply stable_bind; [apply stable_gets | ].
    intros [[[x0 y0] width] height].
    destruct (_ || _); [apply stable_raise | ].
    apply stable_modify. intros; apply H3. }
  intros _. apply stable_bind; [apply stable_modify; intros; apply H2 | intros _].
  apply stable_bind; [apply stable_modify; intros; apply H3 | intros _].
  apply stable_ret.
Qed.



Lemma reduce_ticks_calls (a n : nat) (evs : list event) (w : World) :
  exists n' new,
    reduce_ticks a (with_log n evs w) = (Ok tt, with_log n' (new ++ evs) w) /\
    calls_to "locator_params" new = thinning w a.
Proof.
  unfold reduce_ticks, thinning.
  erewrite bind_ok by reflexivity.
  change (axes_of (with_log n evs w) a) with (axes_of w a).
  destruct (4 <? length (xticks (axes_of w a)))%nat.
  - unfold when at 1, locator_params at 1.
    erewrite bind_ok by apply mpl_call__run.
    rewrite with_log_logged.
    erewrite bind_ok by reflexivity.
    match goal with
    | |- context [axes_of (with_log ?k ?l w) a] =>
        change (axes_of (with_log k l w) a) with (axes_of w a)
    end.
    destruct (4 <? length (yticks (axes_of w a)))%nat.
    + unfold when, locator_params. rewrite mpl_call__run, with_log_logged.
      eexists _, [_; _]. split; reflexivity.
    + eexists _, [_]. split; reflexivity.
  - erewrite bind_ok by reflexivity.
    erewrite bind_ok by reflexivity.
    change (axes_of (with_log n evs w) a) with (axes_of w a).
    destruct (4 <? length (yticks (axes_of w a)))%nat.
    + unfold when, locator_params. rewrite mpl_call__run, with_log_logged.
      eexists _, [_]. split; reflexivity.
    + exists n, []. split; reflexivity.
Qed.

Lemma reduce_all_calls (l : list nat) (n : nat) (evs : list event) (w : World) :
  exists n' new,
    for_each l reduce_ticks (with_log n evs w) = (Ok tt, with_log n' (new ++ evs) w) /\
    calls_to "locator_params" new = flat_map (thinning w) (rev l).
Proof.
  revert n evs. induction l as [ | a l IH]; intros n evs.
  - exists n, []. split; reflexivity.
  - simpl for_each.
    destruct (reduce_ticks_calls a n evs w) as (n1 & new1 & E1 & H1).
    erewrite bind_ok by exact E1.
    destruct (IH n1 (new1 ++ evs)) as (n2 & new2 & E2 & H2).
    exists n2, (new2 ++ new1). split.
    + rewrite E2. now rewrite app_assoc.
    + rewrite calls_to_app, H1, H2. simpl rev.
      rewrite flat_map_app. simpl. now rewrite app_nil_r.
Qed.

Ltac stable_auto :=
  repeat first
    [ apply stable_ret
    | apply stable_raise
    | apply stable_gets
    | apply stable_index
    | apply stable_when
    | apply stable_modify; intros; reflexivity
    | apply stable_bind; [ | intro]
    | match goal with
      | |- stable _ (match ?x with _ => _ end) => destruct x
      end ].

(** X23: the ticks [savefig] thins out.  When [savefig] returns, the calls
    of [locator_params] it has made are these: under the style [minimal],
    one for each axes of the figure and each of its two directions that has
    more than four ticks, asking for [nbins] of the number of ticks divided
    by 1.5; under every other style, none.  The ticks are counted as the
    figure has them when [savefig] is called. *)
Theorem savefig_thins_ticks (style mode fname : string) (ucs : bool)
    (kw : kwargs) (w w' : World) (r : pyval) :
  savefig style mode fname ucs kw w = (Ok r, w') ->
  exists new,
    calls_to "locator_params" (calls w') =
      new ++ calls_to "locator_params" (calls w) /\
    forall c,
      In c new <->
      style = "minimal"%string /\
      exists a,
        In a (fig_axes w) /\
        (((4 < length (xticks (axes_of w a)))%nat /\
          c = (PyAxes a, [], locator_kwargs "x" (length (xticks (axes_of w a)))))
         \/
         ((4 < length (yticks (axes_of w a)))%nat /\
          c = (PyAxes a, [], locator_kwargs "y" (length (yticks (axes_of w a)))))).
Proof.
  intros H.
  destruct (fig_axes w) as [ | a0 rest] eqn:Hfig.
  { rewrite (savefig_no_axes style mode fname ucs kw w Hfig) in H. discriminate. }
  unfold savefig in H.
  erewrite bind_ok in H by reflexivity. rewrite Hfig in H.
  erewrite bind_ok in H by reflexivity.
  erewrite bind_ok in H by reflexivity.
  assert (Hloop : exists n new,
    when (String.eqb style "minimal")
      (let* all_axes := get_axes in for_each all_axes reduce_ticks) w
    = (Ok tt, with_log n new w) /\
    calls_to "locator_params" new =
      if String.eqb style "minimal"
      then flat_map (thinning w) (rev (fig_axes w)) else []).
  { destruct (String.eqb style "minimal"); simpl when.
    - erewrite bind_ok by reflexivity.
      destruct (reduce_all_calls (fig_axes w) (next_obj w) [] w)
        as (n & new & E & Hn).
      rewrite <- with_log_nil, app_nil_r in E. eauto.
    - exists (next_obj w), []. split; [ | reflexivity].
      unfold ret. f_equal. apply with_log_nil. }
  destruct Hloop as (n & new & Eloop & Hnew).
  erewrite bind_ok in H by exact Eloop.
  match type of H with
  | ?m ?w0 = _ =>
      assert (Hs : stable (fun x => calls_to "locator_params" (calls x)) m)
  end.
  { stable_auto. }
  apply Hs in H. cbn [calls with_log] in H. rewrite calls_to_app in H.
  exists (calls_to "locator_params" new). split; [exact H | ].
  rewrite <- Hfig. intros c. rewrite Hnew.
  destruct (String.eqb_spec style "minimal") as [-> | Hne].
  - rewrite in_flat_map. split.
    + intros (a & Ha & Hc). split; [reflexivity | ].
      exists a. split; [exact (proj2 (List.in_rev _ _) Ha) | ].
      unfold thinning in Hc. apply in_app_or in Hc.
      destruct Hc as [Hc | Hc].
      * right. destruct (Nat.ltb_spec 4 (length (yticks (axes_of w a))));
          [ | contradiction].
        destruct Hc as [<- | []]. auto.
      * left. destruct (Nat.ltb_spec 4 (length (xticks (axes_of w a))));
          [ | contradiction].
        destruct Hc as [<- | []]. auto.
    + intros (_ & a & Ha & Hc). exists a.
      split; [exact (proj1 (List.in_rev _ _) Ha) | ].
      unfold thinning. apply in_or_app.
      destruct Hc as [[Hlt ->] | [Hlt ->]].
      * right. apply Nat.ltb_lt in Hlt. rewrite Hlt. left. reflexivity.
      * left. apply Nat.ltb_lt in Hlt. rewrite Hlt. left. reflexivity.
  - split; [intros [] | intros [E _]; contradiction].
Qed.

Lemma savefig_thins_ticks_witness :
  let w' := snd (savefig "minimal" "default" "fig" false ∅ ticked_world) in
  exists new,
    calls_to "locator_params" (calls w') =
      new ++ calls_to "locator_params" (calls ticked_world) /\
    forall c,
      In c new <->
      "minimal"%string = "minimal"%string /\
      exists a,
        In a (fig_axes ticked_world) /\
        (((4 < length (xticks (axes_of ticked_world a)))%nat /\
          c = (PyAxes a, [],
               locator_kwargs "x" (length (xticks (axes_of ticked_world a)))))
         \/
         ((4 < length (yticks (axes_of ticked_world a)))%nat /\
          c = (PyAxes a, [],
               locator_kwargs "y" (length (yticks (axes_of ticked_world a)))))).
Proof.
  apply (savefig_thins_ticks "minimal" "default" "fig" false ∅ ticked_world _
           PyNone).
  reflexivity.
Defined.

(** On the world with six ticks along x and none along y, one call is
    made, for x, with [nbins = 6 / 1.5]. *)
Example savefig_thins_ticks_demo :
  calls_to "locator_params"
    (calls (snd (savefig "minimal" "default" "fig" false ∅ ticked_world)))
  = [(PyAxes 0, [], locator_kwargs "x" 6)].
Proof. vm_compute. reflexivity. Qed.
